(** * solicitudes-service: the veterinary endpoints and the auth delegation

    A shallow embedding of
      - app/services/auth_service.py        (AuthService)
      - app/api/dependencies.py             (the Depends helpers)
      - app/api/v1/endpoints/solicitudes/vet/get.py
      - app/api/v1/endpoints/solicitudes/vet/post.py

    A Python [str] is the Rocq [string] of its UTF-8 bytes.  [strip] knows
    every character that [str.isspace] accepts; [title] is computed here
    for ASCII text and taken from the interpreter's Unicode tables, a
    parameter of the environment, for any other text.  Calls to [print]
    write to stdout only and are left out.  Every call that leaves
    the process (profile service, image host, document store) is logged in
    a trace and answered by an oracle of the environment [Env]. *)

From Stdlib Require Import ZArith Ascii String List PrimFloat.
From stdpp Require Import base option list strings gmap fin_maps.

Import ListNotations.
Local Open Scope Z_scope.
Local Open Scope string_scope.
Local Open Scope list_scope.

(** ** Python strings *)

Module PyStr.

Definition byte (c : ascii) : N := N_of_ascii c.

(** A character below U+0080 is one byte, and the other way round. *)
Definition is_ascii_char (c : ascii) : bool := (byte c <? 128)%N.

Fixpoint is_ascii (s : string) : bool :=
  match s with
  | EmptyString => true
  | String c s' => is_ascii_char c && is_ascii s'
  end.

(** [str.isspace] on one ASCII character: TAB, LF, VT, FF, CR, the four
    separators FS, GS, RS, US and the space. *)
Definition is_space (c : ascii) : bool :=
  let n := N_of_ascii c in
  ((9 <=? n) && (n <=? 13) || (28 <=? n) && (n <=? 32))%N.

(** The whitespace characters of two bytes: U+0085 and U+00A0. *)
Definition is_space2 (b0 b1 : N) : bool :=
  ((b0 =? 0xC2) && ((b1 =? 0x85) || (b1 =? 0xA0)))%N.

(** The whitespace characters of three bytes: U+1680, U+2000 to U+200A,
    U+2028, U+2029, U+202F, U+205F and U+3000. *)
Definition is_space3 (b0 b1 b2 : N) : bool :=
  ((b0 =? 0xE1) && (b1 =? 0x9A) && (b2 =? 0x80)
   || (b0 =? 0xE2) && (b1 =? 0x80)
      && ((0x80 <=? b2) && (b2 <=? 0x8A) || (b2 =? 0xA8) || (b2 =? 0xA9) || (b2 =? 0xAF))
   || (b0 =? 0xE2) && (b1 =? 0x81) && (b2 =? 0x9F)
   || (b0 =? 0xE3) && (b1 =? 0x80) && (b2 =? 0x80))%N.

Definition is_upper (c : ascii) : bool :=
  let n := N_of_ascii c in ((65 <=? n) && (n <=? 90))%N.

Definition is_lower (c : ascii) : bool :=
  let n := N_of_ascii c in ((97 <=? n) && (n <=? 122))%N.

(** A cased ASCII character: one that [upper] or [lower] can change. *)
Definition is_cased (c : ascii) : bool := is_upper c || is_lower c.

Definition upper (c : ascii) : ascii :=
  if is_lower c then ascii_of_N (N_of_ascii c - 32) else c.

Definition lower (c : ascii) : ascii :=
  if is_upper c then ascii_of_N (N_of_ascii c + 32) else c.

(** [s.lstrip()]: the leading whitespace characters are dropped, of one,
    two or three bytes each. *)
Fixpoint lstrip (s : string) : string :=
  match s with
  | EmptyString => EmptyString
  | String c0 r0 =>
      if is_space c0 then lstrip r0 else
      match r0 with
      | EmptyString => s
      | String c1 r1 =>
          if is_space2 (byte c0) (byte c1) then lstrip r1 else
          match r1 with
          | EmptyString => s
          | String c2 r2 =>
              if is_space3 (byte c0) (byte c1) (byte c2) then lstrip r2 else s
          end
      end
  end.

(** A string made of whitespace characters only (the empty one included). *)
Fixpoint all_space (s : string) : bool :=
  match s with
  | EmptyString => true
  | String c0 r0 =>
      if is_space c0 then all_space r0 else
      match r0 with
      | EmptyString => false
      | String c1 r1 =>
          if is_space2 (byte c0) (byte c1) then all_space r1 else
          match r1 with
          | EmptyString => false
          | String c2 r2 =>
              if is_space3 (byte c0) (byte c1) (byte c2) then all_space r2 else false
          end
      end
  end.

(** [s.rstrip()]: what is left when the trailing run of whitespace is cut. *)
Fixpoint rstrip (s : string) : string :=
  match s with
  | EmptyString => EmptyString
  | String c s' => if all_space s then EmptyString else String c (rstrip s')
  end.

(** [s.strip()] *)
Definition strip (s : string) : string := rstrip (lstrip s).

(** [s.title()] on ASCII text: a cased character is upper-cased when the
    character before it is not cased, lower-cased otherwise. *)
Fixpoint title_from (previous_is_cased : bool) (s : string) : string :=
  match s with
  | EmptyString => EmptyString
  | String c s' =>
      String (if previous_is_cased then lower c else upper c)
             (title_from (is_cased c) s')
  end.

Definition title_ascii (s : string) : string := title_from false s.

(** [s.title()]: computed for ASCII text; the case mappings of any other
    text are those of the Unicode tables of the interpreter,
    [unicode_title]. *)
Definition title (unicode_title : string -> string) (s : string) : string :=
  if is_ascii s then title_ascii s else unicode_title s.

(** [sep.join(l)] *)
Fixpoint join (sep : string) (l : list string) : string :=
  match l with
  | [] => EmptyString
  | [x] => x
  | x :: xs => x +:+ sep +:+ join sep xs
  end.

(** Truth value of a string: non-empty. *)
Definition truthy (s : string) : bool :=
  match s with EmptyString => false | _ => true end.

(** [x in l] for a list of strings. *)
Definition in_list (x : string) (l : list string) : bool :=
  existsb (String.eqb x) l.

End PyStr.

(** ** Exceptions, external calls and the request monad *)

(** The classes the handlers tell apart with [except]; every one of them
    derives from [Exception]. *)
Inductive ErrClass :=
| RequestError                (* httpx.RequestError and its subclasses *)
| KeyError
| TypeError
| ValueError                  (* json.JSONDecodeError is one *)
| OtherError (name : string).

(** An exception raised by a library or by the interpreter: its class and
    [str(e)]. *)
Record PyError := { err_class : ErrClass; err_str : string }.

(** The [detail] of an HTTPException: a text, or the dict
    [{"message": ..., "errors": [...]}] of the validation errors. *)
Inductive Detail :=
| DetailText (text : string)
| DetailValidation (message : string) (errors : list string).

Inductive exn :=
| HTTPException (status_code : Z) (detail : Detail)
| Error (e : PyError).

(** What [response.json()] can return: any JSON value. *)
#[local] Set Warnings "-register-all".
Inductive Json :=
| JNull
| JBool (b : bool)
| JInt (n : Z)
| JFloat (x : float)
| JString (s : string)
| JArray (items : list Json)
| JObject (fields : gmap string Json).
#[local] Set Warnings "register-all".

(** [type(v).__name__] of a decoded JSON value. *)
Definition type_name (v : Json) : string :=
  match v with
  | JNull => "NoneType"
  | JBool _ => "bool"
  | JInt _ => "int"
  | JFloat _ => "float"
  | JString _ => "str"
  | JArray _ => "list"
  | JObject _ => "dict"
  end.

(** The text of the TypeError of [v[key]] for a string key and a value
    that is not a dict (as CPython 3.11 words it). *)
Definition not_subscriptable (v : Json) : string :=
  match v with
  | JString _ => "string indices must be integers, not 'str'"
  | JArray _ => "list indices must be integers or slices, not str"
  | _ => "'" +:+ type_name v +:+ "' object is not subscriptable"
  end.

(** A document: a Python dict with string keys. *)
Inductive Value :=
| VNone
| VStr (s : string)
| VFloat (x : float).

(** Everything a request sends out of the process. *)
Inductive Event :=
| EvProfileGet (token : string)
| EvUploadImage (file : string) (public_id : string)
| EvGetSolicitudesByOwner (owner_id : Json)
| EvFilterSolicitudes (owner_id : Json)
    (estado especie tipo_sangre urgencia localidad : option string)
| EvGetSolicitudByIdAndOwner (solicitud_id : string) (owner_id : Json)
| EvCreateSolicitudWithOwner (solicitud : gmap string Value) (owner_id : Json).

Inductive Result (E A : Type) :=
| Returns (a : A)
| Raises (e : E).
Arguments Returns {E A} a.
Arguments Raises {E A} e.

(** A computation: the calls it made, in order, and how it ended. *)
Definition M (E A : Type) : Type := list Event * Result E A.

Definition ret {E A} (a : A) : M E A := ([], Returns a).
Definition raise {E A} (e : E) : M E A := ([], Raises e).

Definition bind {E A B} (m : M E A) (f : A -> M E B) : M E B :=
  match m with
  | (t, Returns a) => let '(t', r) := f a in (t ++ t', r)
  | (t, Raises e) => (t, Raises e)
  end.

(** [try: body / except Exception as e: handler e] *)
Definition try_except {E E' A} (body : M E A) (handler : E -> M E' A) : M E' A :=
  match body with
  | (t, Returns a) => (t, Returns a)
  | (t, Raises e) => let '(t', r) := handler e in (t ++ t', r)
  end.

(** An external call: logged, then answered by the environment. *)
Definition external {E A} (ev : Event) (answer : Result E A) : M E A := ([ev], answer).

(** A library exception seen from application code. *)
Definition lift {A} (m : M PyError A) : M exn A :=
  match m with
  | (t, Returns a) => (t, Returns a)
  | (t, Raises e) => (t, Raises (Error e))
  end.

Definition trace {E A} (m : M E A) : list Event := fst m.
Definition outcome {E A} (m : M E A) : Result E A := snd m.

Declare Scope req_scope.
Delimit Scope req_scope with req.
Notation "x <- m ;; k" := (bind m (fun x => k))
  (at level 100, m at next level, right associativity) : req_scope.
Notation "m ;;; k" := (bind m (fun _ => k))
  (at level 100, right associativity) : req_scope.
Local Open Scope req_scope.

(** ** Schemas (app/schemas) *)

(** Modelled from the spec: app/schemas/auth.py is not among the sources.
    "AuthenticatedUser: identifier, email, user type (owner|clinic)".  The
    identifier and the email are kept as the profile gives them. *)
Inductive UserType := OWNER | CLINIC.

Definition UserType_value (t : UserType) : string :=
  match t with OWNER => "owner" | CLINIC => "clinic" end.

Record AuthenticatedUser := {
  id : Json;
  email : Json;
  userType : string
}.

(** The fields the create endpoint receives as form data. *)
Record SolicitudForm := {
  nombre_veterinaria : string;
  nombre_mascota : string;
  especie : string;
  localidad : string;
  descripcion_solicitud : string;
  direccion : string;
  ubicacion : string;
  contacto : string;
  peso_minimo : float;
  tipo_sangre : string;
  urgencia : string
}.

(** One entry of pydantic's [ValidationError.errors()]. *)
Record ErrorItem := { loc : list string; msg : string }.

(** Modelled from the spec: app/schemas/solicitud.py is not among the
    sources.  [model_dump] of a SolicitudCreateWithImage holds the eleven
    fields its constructor is given in post.py ("clinic name, pet name,
    species, locality, free-text description, address, contact, minimum
    weight, blood type, urgency level"). *)
Definition model_dump (f : SolicitudForm) : gmap string Value :=
  <["nombre_veterinaria" := VStr (nombre_veterinaria f)]>
  (<["nombre_mascota" := VStr (nombre_mascota f)]>
  (<["especie" := VStr (especie f)]>
  (<["localidad" := VStr (localidad f)]>
  (<["descripcion_solicitud" := VStr (descripcion_solicitud f)]>
  (<["direccion" := VStr (direccion f)]>
  (<["ubicacion" := VStr (ubicacion f)]>
  (<["contacto" := VStr (contacto f)]>
  (<["peso_minimo" := VFloat (peso_minimo f)]>
  (<["tipo_sangre" := VStr (tipo_sangre f)]>
  (<["urgencia" := VStr (urgencia f)]> ∅)))))))))).

(** The reply of the profile service to [client.get]. *)
Record Response := {
  status_code : Z;
  text : string;
  json : Result PyError Json            (* response.json() *)
}.

(** ** The environment of one request *)

(** What the outside world answers.  [Solicitud] is the response schema of
    app/schemas/solicitud.py; the handlers only pass its values on (an
    instance of a pydantic model is always true in a condition).  The
    accessors of SolicitudMongoModel, [upload_image], the constant
    ESTADOS_PERMITIDOS and the validation done by the constructor of
    SolicitudCreateWithImage are declared outside the sources and are taken
    as they come, and so is what [str.title] does to text that is not
    ASCII. *)
Record Env (Solicitud : Type) := {
  client_get : string -> Result PyError Response;
  upload_image : string -> string -> Result PyError string;
  get_solicitudes_by_owner : Json -> Result exn (list Solicitud);
  filter_solicitudes_by_owner_and_status :
    Json -> option string -> option string -> option string ->
    option string -> option string -> Result exn (list Solicitud);
  get_solicitud_by_id_and_owner : string -> Json -> Result exn (option Solicitud);
  create_solicitud_with_owner : gmap string Value -> Json -> Result exn Solicitud;
  token_hex_12 : string;                (* secrets.token_hex(12) *)
  now_isoformat : string;               (* datetime.now().isoformat() *)
  ESTADOS_PERMITIDOS : list string;
  SolicitudCreateWithImage : SolicitudForm -> Result (list ErrorItem) SolicitudForm;
  unicode_title : string -> string      (* str.title on text that is not ASCII *)
}.
Arguments client_get {Solicitud} _ _.
Arguments upload_image {Solicitud} _ _ _.
Arguments get_solicitudes_by_owner {Solicitud} _ _.
Arguments filter_solicitudes_by_owner_and_status {Solicitud} _ _ _ _ _ _ _.
Arguments get_solicitud_by_id_and_owner {Solicitud} _ _ _.
Arguments create_solicitud_with_owner {Solicitud} _ _ _.
Arguments token_hex_12 {Solicitud} _.
Arguments now_isoformat {Solicitud} _.
Arguments ESTADOS_PERMITIDOS {Solicitud} _.
Arguments SolicitudCreateWithImage {Solicitud} _ _.
Arguments unicode_title {Solicitud} _ _.

(** The part of an HTTP request the dependencies read: the bearer token
    that HTTPBearer extracted and the X-User-Type header. *)
Record Request := {
  credentials : string;
  x_user_type : option string
}.

Section Service.

Context {Solicitud : Type}.
Variable env : Env Solicitud.

(** *** app/services/auth_service.py *)

Definition isinstance_RequestError (e : exn) : bool :=
  match e with
  | Error {| err_class := RequestError |} => true
  | _ => false
  end.

Definition get_user_profile_from_token (token : string) : M exn Json :=
  try_except
    (response <- lift (external (EvProfileGet token) (client_get env token)) ;;
     if Z.eqb (status_code response) 200 then
       user_data <- lift ([], json response) ;;
       ret user_data
     else
       raise (HTTPException 401 (DetailText "Token inválido o expirado")))
    (fun e =>
       if isinstance_RequestError e then
         raise (HTTPException 503 (DetailText "Servicio de autenticación no disponible"))
       else
         raise (HTTPException 500 (DetailText "Error interno del servidor de autenticación"))).

(** [d[key]] with a string key: the value of a dict, KeyError for a key
    the dict does not have, TypeError for a value that is not a dict. *)
Definition getitem (d : Json) (key : string) : M exn Json :=
  match d with
  | JObject fields =>
      match fields !! key with
      | Some v => ret v
      | None => raise (Error {| err_class := KeyError; err_str := "'" +:+ key +:+ "'" |})
      end
  | _ => raise (Error {| err_class := TypeError; err_str := not_subscriptable d |})
  end.

(** [d.get(key, default)]: only a dict has the method. *)
Definition dict_get (d : Json) (key : string) (default_value : Json) : M exn Json :=
  match d with
  | JObject fields => ret (default default_value (fields !! key))
  | _ => raise (Error {| err_class := OtherError "AttributeError";
                         err_str := "'" +:+ type_name d
                                    +:+ "' object has no attribute 'get'" |})
  end.

(** The header value after the [if user_type is None ...] default. *)
Definition user_type_or_default (user_type : option string) : string :=
  match user_type with
  | None => "clinic"
  | Some s => s
  end.

Definition userType_invalido : exn :=
  HTTPException 400 (DetailText "userType inválido. Debe ser 'owner' o 'clinic'").

Definition get_current_user (req : Request) : M exn AuthenticatedUser :=
  let user_type := user_type_or_default (x_user_type req) in
  if negb (PyStr.in_list user_type ["owner"; "clinic"]) then
    raise userType_invalido
  else
    let token := credentials req in
    user_profile <- get_user_profile_from_token token ;;
    user_id <- getitem user_profile "id" ;;
    user_email <- dict_get user_profile "email" (JString "user@example.com") ;;
    ret {| id := user_id;
           email := user_email;
           userType := user_type |}.

Definition get_user_id_from_token (token user_type : string) : M exn Json :=
  if negb (PyStr.in_list user_type ["owner"; "clinic"]) then
    raise userType_invalido
  else
    user_profile <- get_user_profile_from_token token ;;
    getitem user_profile "id".

Definition get_current_user_id (req : Request) : M exn Json :=
  let user_type := user_type_or_default (x_user_type req) in
  if negb (PyStr.in_list user_type ["owner"; "clinic"]) then
    raise userType_invalido
  else
    let token := credentials req in
    user_profile <- get_user_profile_from_token token ;;
    getitem user_profile "id".

(** [user.userType not in allowed_types] compares with the values of the
    enumeration. *)
Definition verify_user_type (user : AuthenticatedUser) (allowed_types : list UserType)
  : M exn bool :=
  if negb (PyStr.in_list (userType user) (map UserType_value allowed_types)) then
    raise (HTTPException 403 (DetailText
      ("Acceso denegado. Se requiere uno de los siguientes tipos: "
       +:+ PyStr.join ", " (map UserType_value allowed_types))))
  else ret true.

(** *** app/api/dependencies.py *)

Definition get_current_user_owner (req : Request) : M exn AuthenticatedUser :=
  current_user <- get_current_user req ;;
  (verify_user_type current_user [OWNER] ;;;
   ret current_user).

Definition get_current_user_clinic (req : Request) : M exn AuthenticatedUser :=
  current_user <- get_current_user req ;;
  (verify_user_type current_user [CLINIC] ;;;
   ret current_user).

Definition get_current_user_id_clinic (req : Request) : M exn Json :=
  current_user_id <- get_current_user_id req ;;
  ret current_user_id.

Definition get_current_user_id_owner (req : Request) : M exn Json :=
  current_user_id <- get_current_user_id req ;;
  ret current_user_id.

(** *** app/api/v1/endpoints/solicitudes/vet/get.py *)

Definition get_all_solicitudes (current_user : AuthenticatedUser) : M exn (list Solicitud) :=
  external (EvGetSolicitudesByOwner (id current_user))
           (get_solicitudes_by_owner env (id current_user)).

(** [estado.title()] *)
Definition str_title (s : string) : string := PyStr.title (unicode_title env) s.

Definition estado_invalido : string :=
  "estado: Estado inválido. Los estados válidos son: "
  +:+ PyStr.join ", " (ESTADOS_PERMITIDOS env).

(** The block that validates [estado]: what it leaves in [error_details]
    and in [estado].  The test is [if estado and estado.strip()]. *)
Definition validar_estado (estado : option string) : list string * option string :=
  match estado with
  | Some s =>
      if PyStr.truthy s && PyStr.truthy (PyStr.strip s) then
        let estado_normalizado := str_title s in
        if negb (PyStr.in_list estado_normalizado (ESTADOS_PERMITIDOS env)) then
          ([estado_invalido], estado)
        else
          ([], Some estado_normalizado)
      else ([], None)
  | None => ([], None)
  end.

Definition get_solicitudes_by_status (current_user : AuthenticatedUser)
    (estado especie tipo_sangre urgencia localidad : option string)
  : M exn (list Solicitud) :=
  let '(error_details, estado) := validar_estado estado in
  match error_details with
  | _ :: _ =>
      raise (HTTPException 422
               (DetailValidation "Error de validación en los parámetros de filtro"
                                 error_details))
  | [] =>
      solicitudes <-
        external (EvFilterSolicitudes (id current_user) estado especie tipo_sangre
                                      urgencia localidad)
                 (filter_solicitudes_by_owner_and_status env (id current_user) estado
                                      especie tipo_sangre urgencia localidad) ;;
      ret solicitudes
  end.

Definition get_solicitud_by_id (solicitud_id : string) (current_user : AuthenticatedUser)
  : M exn Solicitud :=
  solicitud <- external (EvGetSolicitudByIdAndOwner solicitud_id (id current_user))
                        (get_solicitud_by_id_and_owner env solicitud_id (id current_user)) ;;
  match solicitud with
  | None => raise (HTTPException 404 (DetailText "Solicitud no encontrada"))
  | Some s => ret s
  end.

(** *** app/api/v1/endpoints/solicitudes/vet/post.py *)

(** [f"{field}: {message}"] for one validation error. *)
Definition error_line (error : ErrorItem) : string :=
  let field := match loc error with
               | [] => "unknown"
               | l0 :: _ => l0
               end in
  field +:+ ": " +:+ msg error.

(** The dict literal of the new solicitud: the four keys written first,
    then the keys of [model_dump], which win where they repeat one. *)
Definition nueva_solicitud (solicitud_id : string) (foto_url : Value)
    (solicitud_validada : SolicitudForm) : gmap string Value :=
  model_dump solicitud_validada ∪
  (<["id" := VStr solicitud_id]>
   (<["fecha_creacion" := VStr (now_isoformat env)]>
   (<["estado" := VStr "Activa"]>
   (<["foto_mascota" := foto_url]> ∅)))).

Definition create_solicitud (current_user_id : Json) (form : SolicitudForm)
    (foto_mascota : option string) : M exn Solicitud :=
  solicitud_validada <-
    try_except ([], SolicitudCreateWithImage env form)
      (fun e =>
         raise (HTTPException 422
                  (DetailValidation "Error de validación en los datos de la solicitud"
                                    (map error_line e)))) ;;
  let solicitud_id := token_hex_12 env in
  foto_url <-
    match foto_mascota with
    | Some file =>
        try_except
          (url <- external (EvUploadImage file solicitud_id)
                           (upload_image env file solicitud_id) ;;
           ret (VStr url))
          (fun e =>
             raise (HTTPException 400
                      (DetailText ("Error al subir la imagen: " +:+ err_str e))))
    | None => ret VNone
    end ;;
  external (EvCreateSolicitudWithOwner
              (nueva_solicitud solicitud_id foto_url solicitud_validada) current_user_id)
           (create_solicitud_with_owner env
              (nueva_solicitud solicitud_id foto_url solicitud_validada) current_user_id).

(** *** The four routes: FastAPI resolves the [Depends] of a handler
    first and calls the handler with what they return. *)

Definition route_get_all (req : Request) : M exn (list Solicitud) :=
  current_user <- get_current_user_clinic req ;;
  get_all_solicitudes current_user.

Definition route_filtrar (req : Request)
    (estado especie tipo_sangre urgencia localidad : option string)
  : M exn (list Solicitud) :=
  current_user <- get_current_user_clinic req ;;
  get_solicitudes_by_status current_user estado especie tipo_sangre urgencia localidad.

Definition route_get_by_id (req : Request) (solicitud_id : string) : M exn Solicitud :=
  current_user <- get_current_user_clinic req ;;
  get_solicitud_by_id solicitud_id current_user.

Definition route_create (req : Request) (form : SolicitudForm)
    (foto_mascota : option string) : M exn Solicitud :=
  current_user_id <- get_current_user_id_clinic req ;;
  create_solicitud current_user_id form foto_mascota.

End Service.

Arguments get_user_profile_from_token {Solicitud} env token.
Arguments str_title {Solicitud} env s.
Arguments get_current_user {Solicitud} env req.
Arguments get_current_user_id {Solicitud} env req.
Arguments get_current_user_clinic {Solicitud} env req.
Arguments get_current_user_id_clinic {Solicitud} env req.
Arguments get_all_solicitudes {Solicitud} env current_user.
Arguments get_solicitudes_by_status {Solicitud} env current_user
  estado especie tipo_sangre urgencia localidad.
Arguments get_solicitud_by_id {Solicitud} env solicitud_id current_user.
Arguments create_solicitud {Solicitud} env current_user_id form foto_mascota.

(** ** What the claims speak about *)

(** The owner-ID argument of a call to the document store. *)
Definition event_owner (ev : Event) : option Json :=
  match ev with
  | EvProfileGet _ => None
  | EvUploadImage _ _ => None
  | EvGetSolicitudesByOwner o => Some o
  | EvFilterSolicitudes o _ _ _ _ _ => Some o
  | EvGetSolicitudByIdAndOwner _ o => Some o
  | EvCreateSolicitudWithOwner _ o => Some o
  end.

(** A call to the document store, read or write. *)
Definition is_store_call (ev : Event) : bool :=
  match event_owner ev with Some _ => true | None => false end.

Definition is_store_write (ev : Event) : bool :=
  match ev with EvCreateSolicitudWithOwner _ _ => true | _ => false end.

(** The id the profile service gives for the token of the request, when it
    answers 200 with a profile that has one. *)
Definition authenticated_id {Solicitud} (env : Env Solicitud) (req : Request) : option Json :=
  match client_get env (credentials req) with
  | Returns r =>
      if Z.eqb (status_code r) 200 then
        match json r with
        | Returns (JObject p) => p !! "id"
        | _ => None
        end
      else None
  | Raises _ => None
  end.

(** Why [user_profile["id"]] raises on a decoded body: a dict that has
    no "id" (KeyError), or a value that is not a dict (TypeError). *)
Definition no_id_in (body : Json) (e : PyError) : Prop :=
  match body with
  | JObject p =>
      p !! "id" = None /\ e = {| err_class := KeyError; err_str := "'id'" |}
  | _ => e = {| err_class := TypeError; err_str := not_subscriptable body |}
  end.

(** A store call made for the request carries the authenticated id. *)
Definition owner_ok {Solicitud} (env : Env Solicitud) (req : Request) (ev : Event) : Prop :=
  match event_owner ev with
  | Some o => authenticated_id env req = Some o
  | None => True
  end.

(** The status a document is stored with. *)
Definition stored_estado (ev : Event) : option Value :=
  match ev with
  | EvCreateSolicitudWithOwner doc _ => doc !! "estado"
  | _ => None
  end.

Definition is_http (code : Z) (e : exn) : Prop :=
  match e with
  | HTTPException c _ => c = code
  | Error _ => False
  end.

(** ** The document store, as the spec describes it *)

Section StoreModel.

Context {Solicitud : Type}.

(** How a stored solicitud is read: whether it belongs to an owner, its
    status, and whether it agrees with the filters on species, blood type,
    urgency and locality. *)
Variable es_de : Solicitud -> Json -> bool.
Variable estado_de : Solicitud -> string.
Variable cumple :
  Solicitud -> option string -> option string -> option string -> option string -> bool.

Definition coincide_estado (estado : option string) (s : Solicitud) : bool :=
  match estado with
  | None => true
  | Some e => String.eqb (estado_de s) e
  end.

(** Modelled from the spec: the accessor
    SolicitudMongoModel.filter_solicitudes_by_owner_and_status of
    app/models/solicitud_mongo.py is not among the sources.  "query a
    document store by owner ID and equality filters": of the stored
    solicitudes, those of the owner that agree with each filter that is
    given; a filter that is None constrains nothing. *)
Definition filtrar_modelo (almacen : list Solicitud) (owner_id : Json)
    (estado especie tipo_sangre urgencia localidad : option string) : list Solicitud :=
  List.filter
    (fun s => es_de s owner_id && coincide_estado estado s
              && cumple s especie tipo_sangre urgencia localidad)
    almacen.

End StoreModel.

(** ** Sample environments *)

Module Demo.

Definition perfil : gmap string Json :=
  <["id" := JString "user_123"]> (<["email" := JString "vet@example.com"]> ∅).

Definition respuesta (code : Z) (body : Result PyError Json) : Response :=
  {| status_code := code; text := ""; json := body |}.

Definition no_es_json : PyError :=
  {| err_class := ValueError; err_str := "Expecting value: line 1 column 1 (char 0)" |}.

Definition fallo_de_subida : PyError :=
  {| err_class := OtherError "Error"; err_str := "Invalid image file" |}.

(** A store that keeps nothing: every read comes back empty and a
    created document is echoed.  Text that is not ASCII is left as it is
    by the sample [unicode_title]. *)
Definition env_with (get : string -> Result PyError Response)
    (up : string -> string -> Result PyError string) : Env (gmap string Value) :=
  {| client_get := get;
     upload_image := up;
     get_solicitudes_by_owner := fun _ => Returns [];
     filter_solicitudes_by_owner_and_status := fun _ _ _ _ _ _ => Returns [];
     get_solicitud_by_id_and_owner := fun _ _ => Returns None;
     create_solicitud_with_owner := fun doc owner => Returns doc;
     token_hex_12 := "684a01e4c351aa9d49b145b8";
     now_isoformat := "2025-06-13T21:01:38.439421";
     ESTADOS_PERMITIDOS := ["Activa"; "Completada"; "Cancelada"];
     SolicitudCreateWithImage := fun f => Returns f;
     unicode_title := fun s => s |}.

Definition subida_ok (file public_id : string) : Result PyError string :=
  Returns ("https://res.cloudinary.com/demo/" +:+ public_id).

(** The token "t-ok" is known to the profile service, any other is not. *)
Definition env : Env (gmap string Value) :=
  env_with (fun token => if String.eqb token "t-ok"
                         then Returns (respuesta 200 (Returns (JObject perfil)))
                         else Returns (respuesta 401 (Raises no_es_json)))
           subida_ok.

(** The profile service answers 200 with a body that is not JSON. *)
Definition env_cuerpo_roto : Env (gmap string Value) :=
  env_with (fun _ => Returns (respuesta 200 (Raises no_es_json))) subida_ok.

(** The profile service answers 200 with the object [{}]. *)
Definition env_sin_id : Env (gmap string Value) :=
  env_with (fun _ => Returns (respuesta 200 (Returns (JObject ∅)))) subida_ok.

(** The image host refuses the file. *)
Definition env_sin_imagenes : Env (gmap string Value) :=
  env_with (fun _ => Returns (respuesta 200 (Returns (JObject perfil))))
           (fun _ _ => Raises fallo_de_subida).

Definition form : SolicitudForm :=
  {| nombre_veterinaria := "AnimalCare";
     nombre_mascota := "Canela";
     especie := "Perro";
     localidad := "Usaquen";
     descripcion_solicitud := "Canela necesita una transfusion urgente.";
     direccion := "Av. 19 #120-56";
     ubicacion := "Usaquen, Bogota";
     contacto := "+57 301 234 5678";
     peso_minimo := 18%float;
     tipo_sangre := "DEA 1.1+";
     urgencia := "Alta" |}.

Definition clinica : AuthenticatedUser :=
  {| id := JString "user_123"; email := JString "vet@example.com"; userType := "clinic" |}.

Definition req (token : string) (header : option string) : Request :=
  {| credentials := token; x_user_type := header |}.

End Demo.

(** ** Further vocabulary and sample environments *)

(** The request to the profile service. *)
Definition is_profile_get (ev : Event) : bool :=
  match ev with EvProfileGet _ => true | _ => false end.

(** The profile service is asked first and only once. *)
Definition asks_profile_once (req : Request) (t : list Event) : Prop :=
  t = [] \/
  exists rest, t = EvProfileGet (credentials req) :: rest /\
               Forall (fun ev => is_profile_get ev = false) rest.

(** A string of ASCII whitespace only (the empty one included). *)
Fixpoint ascii_blank (s : string) : bool :=
  match s with
  | EmptyString => true
  | String c s' => PyStr.is_space c && ascii_blank s'
  end.

(** The status the profile call gives an exception of the try block. *)
Definition status_for (e : PyError) : Z :=
  match err_class e with
  | RequestError => 503
  | _ => 500
  end.

(** What the by-id handler makes of the answer of the store. *)
Definition found_or_404 {Solicitud} (answer : Result exn (option Solicitud))
  : Result exn Solicitud :=
  match answer with
  | Returns (Some s) => Returns s
  | Returns None => Raises (HTTPException 404 (DetailText "Solicitud no encontrada"))
  | Raises e => Raises e
  end.

Module Casos.

(** U+00A0, U+3000 and U+00E9 in UTF-8. *)
Definition nbsp : string := String (ascii_of_N 0xC2) (String (ascii_of_N 0xA0) "").

Definition ideographic_space : string :=
  String (ascii_of_N 0xE3) (String (ascii_of_N 0x80) (String (ascii_of_N 0x80) "")).

Definition e_acute : string := String (ascii_of_N 0xC3) (String (ascii_of_N 0xA9) "").

Definition sin_conexion : PyError :=
  {| err_class := RequestError; err_str := "All connection attempts failed" |}.

(** The profile service cannot be reached. *)
Definition env_sin_red : Env (gmap string Value) :=
  Demo.env_with (fun _ => Raises sin_conexion) Demo.subida_ok.

Definition errores : list ErrorItem :=
  [ {| loc := ["peso_minimo"]; msg := "Input should be greater than 0" |};
    {| loc := []; msg := "Value error" |} ].

(** The form does not pass the validation of the schema. *)
Definition env_form_invalido : Env (gmap string Value) :=
  {| client_get := client_get Demo.env;
     upload_image := upload_image Demo.env;
     get_solicitudes_by_owner := get_solicitudes_by_owner Demo.env;
     filter_solicitudes_by_owner_and_status :=
       filter_solicitudes_by_owner_and_status Demo.env;
     get_solicitud_by_id_and_owner := get_solicitud_by_id_and_owner Demo.env;
     create_solicitud_with_owner := create_solicitud_with_owner Demo.env;
     token_hex_12 := token_hex_12 Demo.env;
     now_isoformat := now_isoformat Demo.env;
     ESTADOS_PERMITIDOS := ESTADOS_PERMITIDOS Demo.env;
     SolicitudCreateWithImage := fun _ => Raises errores;
     unicode_title := unicode_title Demo.env |}.

Definition duena : AuthenticatedUser :=
  {| id := JString "user_123"; email := JString "vet@example.com"; userType := "owner" |}.

(** What [[]["id"]] raises. *)
Definition indice_de_lista : PyError :=
  {| err_class := TypeError;
     err_str := "list indices must be integers or slices, not str" |}.

(** The profile service answers 200 with the array [[]]. *)
Definition env_cuerpo_lista : Env (gmap string Value) :=
  Demo.env_with (fun _ => Returns (Demo.respuesta 200 (Returns (JArray [])))) Demo.subida_ok.

(** Two solicitudes in the store, one active and one closed. *)
Definition activa : gmap string Value :=
  <["id" := VStr "a1"]> (<["estado" := VStr "Activa"]> (<["ownerId" := VStr "user_123"]> ∅)).

Definition completada : gmap string Value :=
  <["id" := VStr "c2"]> (<["estado" := VStr "Completada"]> (<["ownerId" := VStr "user_123"]> ∅)).

Definition almacen : list (gmap string Value) := [activa; completada].

Definition es_de (s : gmap string Value) (owner : Json) : bool :=
  match s !! "ownerId", owner with
  | Some (VStr o), JString o' => String.eqb o o'
  | _, _ => false
  end.

Definition estado_de (s : gmap string Value) : string :=
  match s !! "estado" with
  | Some (VStr e) => e
  | _ => ""
  end.

(** The sample store answers the filter query as the modelled accessor. *)
Definition env_con_almacen : Env (gmap string Value) :=
  {| client_get := client_get Demo.env;
     upload_image := upload_image Demo.env;
     get_solicitudes_by_owner := get_solicitudes_by_owner Demo.env;
     filter_solicitudes_by_owner_and_status :=
       fun owner estado especie tipo_sangre urgencia localidad =>
         Returns (filtrar_modelo es_de estado_de (fun _ _ _ _ _ => true) almacen
                    owner estado especie tipo_sangre urgencia localidad);
     get_solicitud_by_id_and_owner := get_solicitud_by_id_and_owner Demo.env;
     create_solicitud_with_owner := create_solicitud_with_owner Demo.env;
     token_hex_12 := token_hex_12 Demo.env;
     now_isoformat := now_isoformat Demo.env;
     ESTADOS_PERMITIDOS := ESTADOS_PERMITIDOS Demo.env;
     SolicitudCreateWithImage := SolicitudCreateWithImage Demo.env;
     unicode_title := unicode_title Demo.env |}.

End Casos.

(** ** Basic facts *)

(** A property of every event of an explicit trace. *)
Ltac forall_events :=
  repeat (apply Forall_cons || apply Forall_nil); simpl; auto.

Example title_activa : PyStr.title_ascii "activa" = "Activa".
Proof. reflexivity. Qed.

Example title_ACTIVA : PyStr.title_ascii "ACTIVA" = "Activa".
Proof. reflexivity. Qed.

Example title_two_words : PyStr.title_ascii "en PROCESO" = "En Proceso".
Proof. reflexivity. Qed.

Example strip_nbsp : PyStr.strip Casos.nbsp = "".
Proof. reflexivity. Qed.

Example strip_ideographic_space :
  PyStr.strip (Casos.ideographic_space +:+ "Activa" +:+ Casos.nbsp) = "Activa".
Proof. reflexivity. Qed.

Example strip_keeps_accent : PyStr.strip (" " +:+ Casos.e_acute +:+ " ") = Casos.e_acute.
Proof. reflexivity. Qed.

Example strip_blank : PyStr.strip "   " = "".
Proof. reflexivity. Qed.

Example strip_padded : PyStr.strip "  a b  " = "a b".
Proof. reflexivity. Qed.

Lemma in_list_In (x : string) (l : list string) :
  PyStr.in_list x l = true <-> In x l.
Proof.
  unfold PyStr.in_list. rewrite existsb_exists. split.
  - intros [y [Hy Heq]]. apply String.eqb_eq in Heq. now subst.
  - intros Hx. exists x. split; [assumption | apply String.eqb_refl].
Qed.

Lemma in_list_owner_clinic (s : string) :
  PyStr.in_list s ["owner"; "clinic"] = true <-> s = "owner" \/ s = "clinic".
Proof.
  rewrite in_list_In. simpl. intuition congruence.
Qed.

Lemma strip_truthy (s : string) :
  PyStr.strip s <> "" -> PyStr.truthy s && PyStr.truthy (PyStr.strip s) = true.
Proof.
  intros Hs. destruct s as [|c s]; [now elim Hs|].
  simpl PyStr.truthy at 1. destruct (PyStr.strip (String c s)); [now elim Hs | reflexivity].
Qed.

Lemma strip_blank_falsy (s : string) :
  PyStr.strip s = "" -> PyStr.truthy s && PyStr.truthy (PyStr.strip s) = false.
Proof.
  intros ->. apply andb_false_r.
Qed.

Lemma bind_external_ret {E A} (ev : Event) (ans : Result E A) :
  bind (external ev ans) (fun x => ret x) = ([ev], ans).
Proof.
  destruct ans; reflexivity.
Qed.

Section Facts.

Context {Solicitud : Type}.
Variable env : Env Solicitud.

(** The profile call sends one request and nothing else. *)
Lemma get_user_profile_trace (token : string) :
  trace (get_user_profile_from_token env token) = [EvProfileGet token].
Proof.
  unfold get_user_profile_from_token, external, lift.
  destruct (client_get env token) as [r|[[] ?]]; try reflexivity.
  simpl. destruct (Z.eqb (status_code r) 200); [|reflexivity].
  destruct (json r) as [p|[[] ?]]; reflexivity.
Qed.

(** It returns exactly on a 200 whose body decodes. *)
Lemma get_user_profile_returns (token : string) (r : Response) (p : Json) :
  client_get env token = Returns r ->
  status_code r = 200 ->
  json r = Returns p ->
  get_user_profile_from_token env token = ([EvProfileGet token], Returns p).
Proof.
  intros Hget Hst Hjson.
  unfold get_user_profile_from_token, external, lift.
  rewrite Hget. simpl. rewrite Hst. simpl. rewrite Hjson. reflexivity.
Qed.

Lemma get_user_profile_returns_inv (token : string) (t : list Event) (p : Json) :
  get_user_profile_from_token env token = (t, Returns p) ->
  exists r, client_get env token = Returns r /\ status_code r = 200 /\ json r = Returns p.
Proof.
  unfold get_user_profile_from_token, external, lift.
  destruct (client_get env token) as [r|[[] ?]]; try discriminate.
  simpl. destruct (Z.eqb (status_code r) 200) eqn:Hst; [|discriminate].
  destruct (json r) as [q|[[] ?]] eqn:Hj; try discriminate.
  intros [= _ <-]. exists r. apply Z.eqb_eq in Hst. auto.
Qed.

(** Whatever goes wrong leaves the call as an HTTPException. *)
Lemma get_user_profile_raises (token : string) (t : list Event) (e : exn) :
  get_user_profile_from_token env token = (t, Raises e) ->
  is_http 500 e \/ is_http 503 e.
Proof.
  unfold get_user_profile_from_token, external, lift.
  destruct (client_get env token) as [r|[[] ?]];
    try (intros [= _ <-]; simpl; auto; fail).
  simpl. destruct (Z.eqb (status_code r) 200);
    [|intros [= _ <-]; simpl; auto].
  destruct (json r) as [q|[[] ?]]; try discriminate;
    intros [= _ <-]; simpl; auto.
Qed.

(** A reply other than 200 ends in the handler of [except Exception],
    which sits around the [raise] of the 401. *)
Lemma get_user_profile_non_200 (token : string) (r : Response) :
  client_get env token = Returns r ->
  status_code r <> 200 ->
  get_user_profile_from_token env token =
    ([EvProfileGet token],
     Raises (HTTPException 500 (DetailText "Error interno del servidor de autenticación"))).
Proof.
  intros Hget Hst. apply Z.eqb_neq in Hst.
  unfold get_user_profile_from_token, external, lift.
  rewrite Hget. simpl. rewrite Hst. reflexivity.
Qed.

Lemma get_user_profile_request_error (token : string) (e : PyError) :
  client_get env token = Raises e ->
  err_class e = RequestError ->
  get_user_profile_from_token env token =
    ([EvProfileGet token],
     Raises (HTTPException 503 (DetailText "Servicio de autenticación no disponible"))).
Proof.
  intros Hget Hcls.
  unfold get_user_profile_from_token, external, lift.
  rewrite Hget. simpl. destruct e as [cls str]. simpl in Hcls. subst cls. reflexivity.
Qed.

End Facts.

Section AuthFacts.

Context {Solicitud : Type}.
Variable env : Env Solicitud.

(** With an accepted header value and a profile that has an id, the
    user is built from the profile and the header. *)
Lemma get_current_user_returns (req : Request) (r : Response)
    (p : gmap string Json) (uid : Json) :
  PyStr.in_list (user_type_or_default (x_user_type req)) ["owner"; "clinic"] = true ->
  client_get env (credentials req) = Returns r ->
  status_code r = 200 ->
  json r = Returns (JObject p) ->
  p !! "id" = Some uid ->
  get_current_user env req =
    ([EvProfileGet (credentials req)],
     Returns {| id := uid;
                email := default (JString "user@example.com") (p !! "email");
                userType := user_type_or_default (x_user_type req) |}).
Proof.
  intros Hty Hget Hst Hjson Hid. unfold get_current_user.
  rewrite Hty. simpl negb. cbv iota.
  rewrite (get_user_profile_returns env _ r _ Hget Hst Hjson).
  unfold getitem, dict_get. simpl. rewrite Hid. reflexivity.
Qed.

Lemma get_current_user_id_returns (req : Request) (r : Response)
    (p : gmap string Json) (uid : Json) :
  PyStr.in_list (user_type_or_default (x_user_type req)) ["owner"; "clinic"] = true ->
  client_get env (credentials req) = Returns r ->
  status_code r = 200 ->
  json r = Returns (JObject p) ->
  p !! "id" = Some uid ->
  get_current_user_id env req = ([EvProfileGet (credentials req)], Returns uid).
Proof.
  intros Hty Hget Hst Hjson Hid. unfold get_current_user_id.
  rewrite Hty. simpl negb. cbv iota.
  rewrite (get_user_profile_returns env _ r _ Hget Hst Hjson).
  unfold getitem. simpl. rewrite Hid. reflexivity.
Qed.

(** Reading the id of a decoded body: the value under "id", or the
    KeyError of a dict without it, or the TypeError of a body that is not
    a dict. *)
Lemma getitem_id_cases (body : Json) :
  match getitem body "id" with
  | (t, Returns uid) =>
      t = [] /\ exists p, body = JObject p /\ p !! "id" = Some uid
  | (t, Raises (Error e)) =>
      t = [] /\ no_id_in body e
  | (t, Raises (HTTPException _ _)) => False
  end.
Proof.
  unfold getitem, no_id_in.
  destruct body as [| | | | | |p]; simpl; auto.
  destruct (p !! "id") as [uid|] eqn:Hid; simpl; eauto.
Qed.

(** Every way [get_current_user] can end. *)
Lemma get_current_user_cases (req : Request) :
  match get_current_user env req with
  | (t, Returns u) =>
      t = [EvProfileGet (credentials req)] /\
      authenticated_id env req = Some (id u) /\
      userType u = user_type_or_default (x_user_type req) /\
      (userType u = "owner" \/ userType u = "clinic")
  | (t, Raises (HTTPException c _)) =>
      Forall (fun ev => event_owner ev = None) t /\
      (c = 400 \/ c = 500 \/ c = 503)
  | (t, Raises (Error e)) =>
      t = [EvProfileGet (credentials req)] /\
      authenticated_id env req = None /\
      exists r body, client_get env (credentials req) = Returns r /\
                     status_code r = 200 /\ json r = Returns body /\
                     no_id_in body e
  end.
Proof.
  unfold get_current_user.
  destruct (PyStr.in_list _ _) eqn:Hty; simpl negb; cbv iota.
  2:{ simpl. split; [constructor | auto]. }
  apply in_list_owner_clinic in Hty.
  pose proof (get_user_profile_trace env (credentials req)) as Ht.
  destruct (get_user_profile_from_token env (credentials req)) as [t [body|e]] eqn:Hprof;
    simpl in Ht; subst t.
  - destruct (get_user_profile_returns_inv env _ _ _ Hprof) as [r [Hget [Hst Hjson]]].
    pose proof (getitem_id_cases body) as Hb.
    unfold bind at 1.
    destruct (getitem body "id") as [t' [uid|[c d|e]]]; [| contradiction |].
    + destruct Hb as [-> [p [-> Hid]]].
      unfold authenticated_id. rewrite Hget, Hst, Hjson. simpl. auto.
    + destruct Hb as [-> Hno]. simpl. split; [reflexivity|]. split.
      * unfold authenticated_id. rewrite Hget, Hst, Hjson. simpl.
        unfold no_id_in in Hno. destruct body; try reflexivity. apply Hno.
      * eauto 10.
  - destruct (get_user_profile_raises env _ _ _ Hprof) as [H|H];
      destruct e as [c d|e]; simpl in H; try contradiction; subst c; simpl;
      (split; [repeat constructor | auto]).
Qed.

(** Every way [get_current_user_id] can end. *)
Lemma get_current_user_id_cases (req : Request) :
  match get_current_user_id env req with
  | (t, Returns uid) =>
      t = [EvProfileGet (credentials req)] /\
      authenticated_id env req = Some uid
  | (t, Raises _) => Forall (fun ev => event_owner ev = None) t
  end.
Proof.
  unfold get_current_user_id.
  destruct (PyStr.in_list _ _) eqn:Hty; simpl negb; cbv iota.
  2:{ simpl. constructor. }
  pose proof (get_user_profile_trace env (credentials req)) as Ht.
  destruct (get_user_profile_from_token env (credentials req)) as [t [body|e]] eqn:Hprof;
    simpl in Ht; subst t.
  - destruct (get_user_profile_returns_inv env _ _ _ Hprof) as [r [Hget [Hst Hjson]]].
    pose proof (getitem_id_cases body) as Hb. unfold bind.
    destruct (getitem body "id") as [t' [uid|[c d|e]]]; [| contradiction |].
    + destruct Hb as [-> [p [-> Hid]]].
      unfold authenticated_id. rewrite Hget, Hst, Hjson. simpl. auto.
    + destruct Hb as [-> _]. simpl. repeat constructor.
  - simpl. repeat constructor.
Qed.

(** The guard of the three read routes. *)
Lemma get_current_user_clinic_cases (req : Request) :
  match get_current_user_clinic env req with
  | (t, Returns u) =>
      t = [EvProfileGet (credentials req)] /\
      authenticated_id env req = Some (id u) /\
      userType u = "clinic"
  | (t, Raises _) => Forall (fun ev => event_owner ev = None) t
  end.
Proof.
  unfold get_current_user_clinic.
  pose proof (get_current_user_cases req) as H.
  destruct (get_current_user env req) as [t [u|e]]; simpl.
  - destruct H as [-> [Hid [Hty Hval]]].
    unfold verify_user_type. simpl map.
    destruct (PyStr.in_list (userType u) ["clinic"]) eqn:Hin; simpl.
    + apply in_list_In in Hin. simpl in Hin. intuition.
    + repeat constructor.
  - destruct e as [c d|e]; [apply H|].
    destruct H as [-> _]. repeat constructor.
Qed.

End AuthFacts.

Example demo_get_all :
  route_get_all Demo.env (Demo.req "t-ok" (Some "clinic"))
  = ([EvProfileGet "t-ok"; EvGetSolicitudesByOwner (JString "user_123")], Returns []).
Proof. vm_compute. reflexivity. Qed.

Example demo_get_all_owner :
  outcome (route_get_all Demo.env (Demo.req "t-ok" (Some "owner")))
  = Raises (HTTPException 403 (DetailText
      "Acceso denegado. Se requiere uno de los siguientes tipos: clinic")).
Proof. vm_compute. reflexivity. Qed.

Example demo_bad_token :
  outcome (route_get_all Demo.env (Demo.req "t-viejo" (Some "clinic")))
  = Raises (HTTPException 500 (DetailText "Error interno del servidor de autenticación")).
Proof. vm_compute. reflexivity. Qed.

(** ** The claims *)

(** The three read routes stop a user whose type is not clinic with the
    403 of [verify_user_type], before any call to the store. *)
Lemma read_routes_reject_non_clinic {Solicitud} (env : Env Solicitud) (req : Request)
    (t : list Event) (u : AuthenticatedUser)
    (estado especie tipo_sangre urgencia localidad : option string) (solicitud_id : string) :
  get_current_user env req = (t, Returns u) ->
  userType u <> "clinic" ->
  let denied := HTTPException 403 (DetailText
      "Acceso denegado. Se requiere uno de los siguientes tipos: clinic") in
  route_get_all env req = (t, Raises denied) /\
  route_filtrar env req estado especie tipo_sangre urgencia localidad = (t, Raises denied) /\
  route_get_by_id env req solicitud_id = (t, Raises denied).
Proof.
  intros Hu Hty denied.
  assert (Hguard : get_current_user_clinic env req = (t, Raises denied)).
  { apply String.eqb_neq in Hty.
    unfold get_current_user_clinic, verify_user_type, bind, raise, PyStr.in_list.
    rewrite Hu. simpl. rewrite Hty. simpl. rewrite app_nil_r. reflexivity. }
  unfold route_get_all, route_filtrar, route_get_by_id. rewrite Hguard.
  repeat split.
Qed.

(** C1 (the code departs from it): the create route is guarded by
    [get_current_user_id_clinic], which hands on the id without looking at
    the user type.  A request with a good token and the header
    X-User-Type: owner is not answered 403: the document is written to the
    store under the id of that owner. *)
Theorem route_create_accepts_owner :
  exists doc s,
    route_create Demo.env (Demo.req "t-ok" (Some "owner")) Demo.form None
    = ([EvProfileGet "t-ok"; EvCreateSolicitudWithOwner doc (JString "user_123")], Returns s).
Proof.
  eexists. eexists. vm_compute. reflexivity.
Qed.

(** C2 as stated fails: a 200 reply whose body is not JSON ends in none of
    the three outcomes, it is turned into a 500 by [except Exception]. *)
Lemma profile_call_fourth_outcome :
  let m := get_user_profile_from_token Demo.env_cuerpo_roto "t-ok" in
  (exists r, client_get Demo.env_cuerpo_roto "t-ok" = Returns r /\ status_code r = 200) /\
  outcome m = Raises (HTTPException 500
                (DetailText "Error interno del servidor de autenticación")) /\
  ~ ((exists p, outcome m = Returns p) \/
     (exists e, outcome m = Raises e /\ is_http 401 e) \/
     (exists e, outcome m = Raises e /\ is_http 503 e)).
Proof.
  cbv zeta. split; [|split].
  - eexists. split; reflexivity.
  - reflexivity.
  - intros [[p H]|[[e [H He]]|[e [H He]]]]; vm_compute in H;
      try discriminate; injection H as <-; simpl in He; discriminate.
Qed.

(** C2, amended: the call sends one request; on a 200 whose body decodes
    it returns the profile, on a connection or request error it raises 503,
    and whatever happens it ends with the profile or with an HTTPException
    of status 401, 500 or 503. *)
Theorem profile_call_outcomes {Solicitud} (env : Env Solicitud) (token : string) :
  trace (get_user_profile_from_token env token) = [EvProfileGet token] /\
  (forall r p, client_get env token = Returns r -> status_code r = 200 ->
               json r = Returns p ->
               outcome (get_user_profile_from_token env token) = Returns p) /\
  (forall e, client_get env token = Raises e -> err_class e = RequestError ->
             exists d, outcome (get_user_profile_from_token env token)
                       = Raises (HTTPException 503 d)) /\
  match outcome (get_user_profile_from_token env token) with
  | Returns p => exists r, client_get env token = Returns r /\
                           status_code r = 200 /\ json r = Returns p
  | Raises e => is_http 401 e \/ is_http 500 e \/ is_http 503 e
  end.
Proof.
  split; [apply get_user_profile_trace|]. split; [|split].
  - intros r p Hget Hst Hjson.
    now rewrite (get_user_profile_returns env token r p Hget Hst Hjson).
  - intros e Hget Hcls. eexists.
    now rewrite (get_user_profile_request_error env token e Hget Hcls).
  - destruct (get_user_profile_from_token env token) as [t [p|e]] eqn:Hm; simpl.
    + eapply get_user_profile_returns_inv; eassumption.
    + right. eapply get_user_profile_raises; eassumption.
Qed.

Lemma profile_call_outcomes_witness :
  outcome (get_user_profile_from_token Demo.env "t-ok") = Returns (JObject Demo.perfil).
Proof.
  apply (proj1 (proj2 (profile_call_outcomes Demo.env "t-ok"))
           (Demo.respuesta 200 (Returns (JObject Demo.perfil))) (JObject Demo.perfil));
    reflexivity.
Defined.

(** The status key is not one of the keys of [model_dump], so the literal
    "Activa" survives the merge. *)
Lemma nueva_solicitud_estado {Solicitud} (env : Env Solicitud) (solicitud_id : string)
    (foto_url : Value) (v : SolicitudForm) :
  nueva_solicitud env solicitud_id foto_url v !! "estado" = Some (VStr "Activa").
Proof.
  unfold nueva_solicitud. rewrite lookup_union_r.
  - rewrite lookup_insert_ne by discriminate.
    rewrite lookup_insert_ne by discriminate.
    apply lookup_insert_eq.
  - unfold model_dump.
    repeat (rewrite lookup_insert_ne by discriminate).
    apply lookup_empty.
Qed.

(** The only way the create handler reaches the store. *)
Lemma create_solicitud_trace {Solicitud} (env : Env Solicitud) (current_user_id : Json)
    (form : SolicitudForm) (foto_mascota : option string) (ev : Event) :
  In ev (trace (create_solicitud env current_user_id form foto_mascota)) ->
  (exists file, foto_mascota = Some file /\ ev = EvUploadImage file (token_hex_12 env)) \/
  (exists foto_url v, SolicitudCreateWithImage env form = Returns v /\
     ev = EvCreateSolicitudWithOwner
            (nueva_solicitud env (token_hex_12 env) foto_url v) current_user_id).
Proof.
  unfold create_solicitud, external.
  destruct (SolicitudCreateWithImage env form) as [v|errs]; simpl; [|tauto].
  destruct foto_mascota as [file|]; simpl.
  - destruct (upload_image env file (token_hex_12 env)) as [url|e]; simpl.
    + intros [<-|[<-|[]]]; [left | right]; eauto.
    + intros [<-|[]]. left; eauto.
  - intros [<-|[]]. right; eauto.
Qed.

(** C3: whatever the form and the file, a document the create endpoint
    hands to the store has its status set to "Activa", and a request that
    the endpoint answers with success has stored one such document under
    the id of the caller. *)
Theorem create_solicitud_stores_activa {Solicitud} (env : Env Solicitud)
    (current_user_id : Json) (form : SolicitudForm) (foto_mascota : option string) :
  let m := create_solicitud env current_user_id form foto_mascota in
  Forall (fun ev => is_store_write ev = true -> stored_estado ev = Some (VStr "Activa"))
         (trace m) /\
  (forall s, outcome m = Returns s ->
     exists doc, In (EvCreateSolicitudWithOwner doc current_user_id) (trace m) /\
                 doc !! "estado" = Some (VStr "Activa")).
Proof.
  cbv zeta. split.
  - apply Forall_forall. intros ev Hev Hw.
    apply list_elem_of_In in Hev.
    destruct (create_solicitud_trace env _ _ _ _ Hev) as [[file [_ ->]]|[foto [v [_ ->]]]].
    + discriminate.
    + simpl. apply nueva_solicitud_estado.
  - intros s. unfold create_solicitud, external.
    destruct (SolicitudCreateWithImage env form) as [v|errs]; simpl; [|discriminate].
    destruct foto_mascota as [file|]; simpl.
    + destruct (upload_image env file (token_hex_12 env)) as [url|e]; simpl; [|discriminate].
      intros _. eexists. split; [right; left; reflexivity | apply nueva_solicitud_estado].
    + intros _. eexists. split; [left; reflexivity | apply nueva_solicitud_estado].
Qed.

Lemma create_solicitud_stores_activa_witness :
  exists doc, In (EvCreateSolicitudWithOwner doc (JString "user_123"))
                 (trace (create_solicitud Demo.env (JString "user_123") Demo.form
                                          (Some "png"))) /\
              doc !! "estado" = Some (VStr "Activa").
Proof.
  apply (proj2 (create_solicitud_stores_activa Demo.env (JString "user_123") Demo.form
                  (Some "png"))
           (nueva_solicitud Demo.env "684a01e4c351aa9d49b145b8"
              (VStr "https://res.cloudinary.com/demo/684a01e4c351aa9d49b145b8") Demo.form)).
  reflexivity.
Defined.

(** C4: an [estado] that is not blank after [strip] and whose title-cased
    form is not a permitted status makes the filter handler raise the 422
    with the validation message, and the store is not called. *)
Theorem filtrar_rejects_unknown_estado {Solicitud} (env : Env Solicitud)
    (current_user : AuthenticatedUser) (estado : string)
    (especie tipo_sangre urgencia localidad : option string) :
  PyStr.strip estado <> "" ->
  ~ In (str_title env estado) (ESTADOS_PERMITIDOS env) ->
  get_solicitudes_by_status env current_user (Some estado) especie tipo_sangre
                            urgencia localidad
  = ([], Raises (HTTPException 422
                   (DetailValidation "Error de validación en los parámetros de filtro"
                      ["estado: Estado inválido. Los estados válidos son: "
                       +:+ PyStr.join ", " (ESTADOS_PERMITIDOS env)]))).
Proof.
  intros Hstrip Hnot.
  unfold get_solicitudes_by_status, validar_estado.
  rewrite (strip_truthy estado Hstrip).
  destruct (PyStr.in_list (str_title env estado) (ESTADOS_PERMITIDOS env)) eqn:Hin.
  - apply in_list_In in Hin. contradiction.
  - reflexivity.
Qed.

Lemma filtrar_rejects_unknown_estado_witness :
  get_solicitudes_by_status Demo.env Demo.clinica (Some "pendiente") None None None None
  = ([], Raises (HTTPException 422
                   (DetailValidation "Error de validación en los parámetros de filtro"
                      ["estado: Estado inválido. Los estados válidos son: "
                       +:+ PyStr.join ", " (ESTADOS_PERMITIDOS Demo.env)]))).
Proof.
  apply (filtrar_rejects_unknown_estado Demo.env Demo.clinica "pendiente").
  - vm_compute. discriminate.
  - vm_compute. intros [H|[H|[H|[]]]]; discriminate.
Defined.

(** C5: once the store has answered the lookup by (solicitud_id, id of
    the user), the handler raises the 404 "Solicitud no encontrada" exactly
    when the answer is no solicitud, and returns a found solicitud as it
    came; the lookup is the only call it makes. *)
Theorem get_solicitud_by_id_not_found_iff {Solicitud} (env : Env Solicitud)
    (solicitud_id : string) (current_user : AuthenticatedUser)
    (found : option Solicitud) :
  get_solicitud_by_id_and_owner env solicitud_id (id current_user) = Returns found ->
  let m := get_solicitud_by_id env solicitud_id current_user in
  trace m = [EvGetSolicitudByIdAndOwner solicitud_id (id current_user)] /\
  (outcome m = Raises (HTTPException 404 (DetailText "Solicitud no encontrada"))
   <-> found = None) /\
  (forall s, found = Some s -> outcome m = Returns s).
Proof.
  intros Hfound. cbv zeta. unfold get_solicitud_by_id, external.
  rewrite Hfound. destruct found as [s|]; simpl.
  - split; [reflexivity|]. split; [split; discriminate|].
    now intros s' [= <-].
  - split; [reflexivity|]. split; [tauto | discriminate].
Qed.

Lemma get_solicitud_by_id_not_found_iff_witness :
  outcome (get_solicitud_by_id Demo.env "684a01e4c351aa9d49b145b8" Demo.clinica)
  = Raises (HTTPException 404 (DetailText "Solicitud no encontrada")).
Proof.
  apply (proj2 (proj1 (proj2
    (get_solicitud_by_id_not_found_iff Demo.env "684a01e4c351aa9d49b145b8"
       Demo.clinica None eq_refl)))).
  reflexivity.
Defined.

(** Appending a handler that only talks to the store under [o]. *)
Lemma owner_ok_handler {Solicitud} (env : Env Solicitud) (req : Request) (o : Json)
    (t : list Event) :
  authenticated_id env req = Some o ->
  Forall (fun ev => event_owner ev = None \/ event_owner ev = Some o) t ->
  Forall (owner_ok env req) (EvProfileGet (credentials req) :: t).
Proof.
  intros Hid Ht. constructor; [exact I|].
  eapply List.Forall_impl; [|exact Ht].
  intros ev [H|H]; unfold owner_ok; rewrite H; [exact I | exact Hid].
Qed.

Lemma owner_ok_no_store {Solicitud} (env : Env Solicitud) (req : Request) (t : list Event) :
  Forall (fun ev => event_owner ev = None) t -> Forall (owner_ok env req) t.
Proof.
  apply List.Forall_impl. intros ev H. unfold owner_ok. now rewrite H.
Qed.

Lemma read_handlers_owner {Solicitud} (env : Env Solicitud) (u : AuthenticatedUser)
    (estado especie tipo_sangre urgencia localidad : option string) (solicitud_id : string) :
  let only_owner := fun ev => event_owner ev = None \/ event_owner ev = Some (id u) in
  Forall only_owner (trace (get_all_solicitudes env u)) /\
  Forall only_owner (trace (get_solicitudes_by_status env u estado especie tipo_sangre
                                                      urgencia localidad)) /\
  Forall only_owner (trace (get_solicitud_by_id env solicitud_id u)).
Proof.
  cbv zeta. split; [|split].
  - unfold get_all_solicitudes, external. simpl. forall_events.
  - unfold get_solicitudes_by_status.
    destruct (validar_estado env estado) as [[|err errs] estado']; [|forall_events].
    rewrite bind_external_ret. forall_events.
  - unfold get_solicitud_by_id, external.
    destruct (get_solicitud_by_id_and_owner env solicitud_id (id u)) as [[s|]|e];
      forall_events.
Qed.

Lemma create_handler_owner {Solicitud} (env : Env Solicitud) (uid : Json)
    (form : SolicitudForm) (foto_mascota : option string) :
  Forall (fun ev => event_owner ev = None \/ event_owner ev = Some uid)
         (trace (create_solicitud env uid form foto_mascota)).
Proof.
  apply Forall_forall. intros ev Hev. apply list_elem_of_In in Hev.
  destruct (create_solicitud_trace env _ _ _ _ Hev) as [[f [_ ->]]|[u' [v [_ ->]]]];
    simpl; auto.
Qed.

Lemma trace_bind {E A B} (m : M E A) (f : A -> M E B) :
  trace (bind m f) =
  match m with
  | (t, Returns a) => t ++ trace (f a)
  | (t, Raises _) => t
  end.
Proof.
  destruct m as [t [a|e]]; simpl; [|reflexivity].
  destruct (f a); reflexivity.
Qed.

(** C6: on each of the four routes, every call to the document store, the
    three reads and the write, carries as owner the id that the profile
    service gave for the token of the request; without such an id the
    store is not called at all. *)
Theorem store_calls_use_authenticated_id {Solicitud} (env : Env Solicitud) (req : Request)
    (estado especie tipo_sangre urgencia localidad : option string)
    (solicitud_id : string) (form : SolicitudForm) (foto_mascota : option string) :
  Forall (owner_ok env req) (trace (route_get_all env req)) /\
  Forall (owner_ok env req)
         (trace (route_filtrar env req estado especie tipo_sangre urgencia localidad)) /\
  Forall (owner_ok env req) (trace (route_get_by_id env req solicitud_id)) /\
  Forall (owner_ok env req) (trace (route_create env req form foto_mascota)).
Proof.
  pose proof (get_current_user_clinic_cases env req) as Hclinic.
  pose proof (get_current_user_id_cases env req) as Hid.
  unfold route_get_all, route_filtrar, route_get_by_id, route_create,
    get_current_user_id_clinic.
  rewrite !trace_bind.
  assert (Hcreate : Forall (owner_ok env req)
            (trace (bind (bind (get_current_user_id env req) (fun x => ret x))
                         (fun uid => create_solicitud env uid form foto_mascota)))).
  { rewrite trace_bind.
    destruct (get_current_user_id env req) as [t' [uid|e]]; simpl.
    - destruct Hid as [-> Huid]. simpl.
      apply owner_ok_handler with (o := uid); [assumption|].
      apply create_handler_owner.
    - now apply owner_ok_no_store. }
  rewrite trace_bind in Hcreate.
  destruct (get_current_user_clinic env req) as [t [u|e]].
  - destruct Hclinic as [-> [Hu _]].
    destruct (read_handlers_owner env u estado especie tipo_sangre urgencia localidad
                solicitud_id) as [H1 [H2 H3]].
    repeat split; try (apply owner_ok_handler with (o := id u); assumption).
    exact Hcreate.
  - repeat split; try now apply owner_ok_no_store.
    exact Hcreate.
Qed.

(** C7: when the create handler has sent the supplied file to the image
    host and the upload raised, the handler ends with the 400 that quotes
    the error, and the trace holds no call to the document store. *)
Theorem create_solicitud_upload_failure {Solicitud} (env : Env Solicitud)
    (current_user_id : Json) (form : SolicitudForm) (file : string) (e : PyError) :
  In (EvUploadImage file (token_hex_12 env))
     (trace (create_solicitud env current_user_id form (Some file))) ->
  upload_image env file (token_hex_12 env) = Raises e ->
  outcome (create_solicitud env current_user_id form (Some file))
  = Raises (HTTPException 400 (DetailText ("Error al subir la imagen: " +:+ err_str e))) /\
  Forall (fun ev => is_store_call ev = false)
         (trace (create_solicitud env current_user_id form (Some file))).
Proof.
  unfold create_solicitud, external.
  destruct (SolicitudCreateWithImage env form) as [v|errs]; simpl.
  - intros _ Hup. rewrite Hup. simpl. split; [reflexivity | forall_events].
  - intros [].
Qed.

Lemma create_solicitud_upload_failure_witness :
  outcome (create_solicitud Demo.env_sin_imagenes (JString "user_123") Demo.form (Some "png"))
  = Raises (HTTPException 400 (DetailText "Error al subir la imagen: Invalid image file")) /\
  Forall (fun ev => is_store_call ev = false)
         (trace (create_solicitud Demo.env_sin_imagenes (JString "user_123") Demo.form (Some "png"))).
Proof.
  apply (create_solicitud_upload_failure Demo.env_sin_imagenes (JString "user_123") Demo.form "png"
           Demo.fallo_de_subida).
  - left. reflexivity.
  - reflexivity.
Defined.

(** C8 as stated fails: when the profile service answers 200 with a
    profile that has no "id", [user_profile["id"]] raises KeyError, which is
    neither an HTTPException nor a returned user. *)
Lemma get_current_user_key_error :
  let m := get_current_user Demo.env_sin_id (Demo.req "t-ok" (Some "clinic")) in
  outcome m = Raises (Error {| err_class := KeyError; err_str := "'id'" |}) /\
  ~ ((exists c d, outcome m = Raises (HTTPException c d)) \/
     (exists u, outcome m = Returns u /\ (userType u = "owner" \/ userType u = "clinic"))).
Proof.
  cbv zeta. split; [reflexivity|].
  intros [[c [d H]]|[u [H _]]]; vm_compute in H; discriminate.
Qed.

(** A 200 whose body is the array [[]]: reading the id raises TypeError. *)
Example get_current_user_type_error :
  outcome (get_current_user Casos.env_cuerpo_lista (Demo.req "t-ok" (Some "clinic")))
  = Raises (Error {| err_class := TypeError;
                     err_str := "list indices must be integers or slices, not str" |}).
Proof. reflexivity. Qed.

(** C8, amended: a header value other than 'owner' and 'clinic' is
    rejected with the 400 before anything is sent; a user that
    [get_current_user] returns has userType 'owner' or 'clinic'; and when no
    user is returned the call raised an HTTPException, or, only after the
    profile service answered 200 with a body that decodes, the exception of
    [user_profile["id"]]: the KeyError of an object without "id" or the
    TypeError of a body that is not an object. *)
Theorem get_current_user_user_type {Solicitud} (env : Env Solicitud) (req : Request) :
  (forall s, x_user_type req = Some s -> s <> "owner" -> s <> "clinic" ->
     get_current_user env req
     = ([], Raises (HTTPException 400
                      (DetailText "userType inválido. Debe ser 'owner' o 'clinic'")))) /\
  match outcome (get_current_user env req) with
  | Returns u => userType u = "owner" \/ userType u = "clinic"
  | Raises (HTTPException _ _) => True
  | Raises (Error e) =>
      exists r body, client_get env (credentials req) = Returns r /\
                     status_code r = 200 /\ json r = Returns body /\
                     match body with
                     | JObject p => p !! "id" = None /\ err_class e = KeyError
                     | _ => err_class e = TypeError
                     end
  end.
Proof.
  split.
  - intros s Hs Ho Hc. unfold get_current_user. rewrite Hs. simpl user_type_or_default.
    destruct (PyStr.in_list s ["owner"; "clinic"]) eqn:Hin; [|reflexivity].
    apply in_list_owner_clinic in Hin. tauto.
  - pose proof (get_current_user_cases env req) as H.
    destruct (get_current_user env req) as [t [u|[c d|e]]]; simpl; [tauto | exact I |].
    destruct H as [_ [_ [r [body [Hget [Hst [Hjson Hno]]]]]]].
    exists r, body. repeat split; try assumption.
    unfold no_id_in in Hno.
    destruct body; try (subst e; reflexivity).
    destruct Hno as [Hid ->]. split; [assumption | reflexivity].
Qed.

Lemma get_current_user_user_type_witness :
  get_current_user Demo.env (Demo.req "t-ok" (Some "admin"))
  = ([], Raises (HTTPException 400
                   (DetailText "userType inválido. Debe ser 'owner' o 'clinic'"))).
Proof.
  apply (proj1 (get_current_user_user_type Demo.env (Demo.req "t-ok" (Some "admin")))
           "admin"); [reflexivity | discriminate | discriminate].
Defined.

(** C9: with no X-User-Type header and a token for which the profile
    service returns a profile with an id, [get_current_user] returns that
    user with userType 'clinic', [get_current_user_id] returns the id, and
    the clinic guard lets the user through; nothing is rejected. *)
Theorem missing_header_defaults_to_clinic {Solicitud} (env : Env Solicitud) (req : Request)
    (r : Response) (p : gmap string Json) (uid : Json) :
  x_user_type req = None ->
  client_get env (credentials req) = Returns r ->
  status_code r = 200 ->
  json r = Returns (JObject p) ->
  p !! "id" = Some uid ->
  let user := {| id := uid;
                 email := default (JString "user@example.com") (p !! "email");
                 userType := "clinic" |} in
  get_current_user env req = ([EvProfileGet (credentials req)], Returns user) /\
  get_current_user_id env req = ([EvProfileGet (credentials req)], Returns uid) /\
  get_current_user_clinic env req = ([EvProfileGet (credentials req)], Returns user).
Proof.
  intros Hnone Hget Hst Hjson Hid user.
  assert (Hty : PyStr.in_list (user_type_or_default (x_user_type req)) ["owner"; "clinic"]
                = true) by now rewrite Hnone.
  pose proof (get_current_user_returns env req r p uid Hty Hget Hst Hjson Hid) as Hu.
  rewrite Hnone in Hu. simpl user_type_or_default in Hu.
  split; [exact Hu|]. split.
  - exact (get_current_user_id_returns env req r p uid Hty Hget Hst Hjson Hid).
  - unfold get_current_user_clinic. rewrite Hu. reflexivity.
Qed.

Lemma missing_header_defaults_to_clinic_witness :
  get_current_user Demo.env (Demo.req "t-ok" None)
  = ([EvProfileGet "t-ok"],
     Returns {| id := JString "user_123"; email := JString "vet@example.com"; userType := "clinic" |}).
Proof.
  apply (proj1 (missing_header_defaults_to_clinic Demo.env (Demo.req "t-ok" None)
                  (Demo.respuesta 200 (Returns (JObject Demo.perfil))) Demo.perfil (JString "user_123")
                  eq_refl eq_refl eq_refl eq_refl eq_refl)).
Defined.

(** A string of whitespace characters only is stripped to nothing. *)
Lemma all_space_lstrip (n : nat) (s : string) :
  (String.length s <= n)%nat -> PyStr.all_space s = true -> PyStr.lstrip s = "".
Proof.
  revert s. induction n as [|n IH]; intros s Hlen Hall.
  - destruct s; [reflexivity | simpl in Hlen; lia].
  - destruct s as [|c0 r0]; [reflexivity|].
    simpl in Hlen. cbn [PyStr.all_space PyStr.lstrip] in Hall |- *.
    destruct (PyStr.is_space c0); [apply IH; [lia | exact Hall]|].
    destruct r0 as [|c1 r1]; [discriminate|].
    simpl in Hlen.
    destruct (PyStr.is_space2 (PyStr.byte c0) (PyStr.byte c1));
      [apply IH; [lia | exact Hall]|].
    destruct r1 as [|c2 r2]; [discriminate|].
    simpl in Hlen.
    destruct (PyStr.is_space3 (PyStr.byte c0) (PyStr.byte c1) (PyStr.byte c2));
      [apply IH; [lia | exact Hall] | discriminate].
Qed.

Lemma all_space_strip (s : string) : PyStr.all_space s = true -> PyStr.strip s = "".
Proof.
  intros Hall. unfold PyStr.strip.
  now rewrite (all_space_lstrip (String.length s) s (le_n _) Hall).
Qed.

(** C10: an [estado] that is not blank is put in title case, tested
    against the permitted values in that form and handed to the store in
    that form ('activa' and 'ACTIVA' both as 'Activa'); an [estado] that is
    absent, empty or made of whitespace only, ASCII or not, raises nothing
    and reaches the store as no status filter; and a store that answers as
    the spec describes then returns the solicitudes of the user of every
    status. *)
Theorem filtrar_normalises_estado {Solicitud} (env : Env Solicitud)
    (current_user : AuthenticatedUser)
    (especie tipo_sangre urgencia localidad : option string) :
  let query := fun estado =>
    ([EvFilterSolicitudes (id current_user) estado especie tipo_sangre urgencia localidad],
     filter_solicitudes_by_owner_and_status env (id current_user) estado especie
       tipo_sangre urgencia localidad) in
  let handler := fun estado =>
    get_solicitudes_by_status env current_user estado especie tipo_sangre urgencia
                              localidad in
  (forall s, PyStr.strip s <> "" -> In (str_title env s) (ESTADOS_PERMITIDOS env) ->
     handler (Some s) = query (Some (str_title env s))) /\
  (In "Activa" (ESTADOS_PERMITIDOS env) ->
     handler (Some "activa") = query (Some "Activa") /\
     handler (Some "ACTIVA") = query (Some "Activa")) /\
  (forall s, PyStr.all_space s = true \/ PyStr.strip s = "" ->
     handler (Some s) = query None) /\
  handler None = query None /\
  (forall (es_de : Solicitud -> Json -> bool) (estado_de : Solicitud -> string)
          (cumple : Solicitud -> option string -> option string -> option string ->
                    option string -> bool)
          (almacen : list Solicitud),
     (forall owner_id estado e t u l,
        filter_solicitudes_by_owner_and_status env owner_id estado e t u l
        = Returns (filtrar_modelo es_de estado_de cumple almacen owner_id estado e t u l)) ->
     forall estado,
       estado = None \/ (exists s, estado = Some s /\ PyStr.all_space s = true) ->
       outcome (handler estado)
       = Returns (List.filter
                    (fun s => es_de s (id current_user)
                              && cumple s especie tipo_sangre urgencia localidad)
                    almacen) /\
       (forall sol, In sol almacen ->
          es_de sol (id current_user) = true ->
          cumple sol especie tipo_sangre urgencia localidad = true ->
          exists l, outcome (handler estado) = Returns l /\ In sol l)).
Proof.
  cbv zeta.
  assert (Hnorm : forall s, PyStr.strip s <> "" ->
            In (str_title env s) (ESTADOS_PERMITIDOS env) ->
            get_solicitudes_by_status env current_user (Some s) especie tipo_sangre
              urgencia localidad
            = ([EvFilterSolicitudes (id current_user) (Some (str_title env s)) especie
                  tipo_sangre urgencia localidad],
               filter_solicitudes_by_owner_and_status env (id current_user)
                 (Some (str_title env s)) especie tipo_sangre urgencia localidad)).
  { intros s Hstrip Hin. apply in_list_In in Hin.
    unfold get_solicitudes_by_status, validar_estado.
    rewrite (strip_truthy s Hstrip), Hin. simpl negb. cbv iota.
    apply bind_external_ret. }
  assert (Hblank : forall s, PyStr.all_space s = true \/ PyStr.strip s = "" ->
            get_solicitudes_by_status env current_user (Some s) especie tipo_sangre
              urgencia localidad
            = ([EvFilterSolicitudes (id current_user) None especie tipo_sangre urgencia
                  localidad],
               filter_solicitudes_by_owner_and_status env (id current_user) None especie
                 tipo_sangre urgencia localidad)).
  { intros s Hs.
    assert (Hstrip : PyStr.strip s = "") by (destruct Hs; [now apply all_space_strip | assumption]).
    unfold get_solicitudes_by_status, validar_estado.
    rewrite (strip_blank_falsy s Hstrip). apply bind_external_ret. }
  assert (Hnone : get_solicitudes_by_status env current_user None especie tipo_sangre
                    urgencia localidad
                  = ([EvFilterSolicitudes (id current_user) None especie tipo_sangre
                        urgencia localidad],
                     filter_solicitudes_by_owner_and_status env (id current_user) None
                       especie tipo_sangre urgencia localidad)).
  { unfold get_solicitudes_by_status, validar_estado. apply bind_external_ret. }
  split; [exact Hnorm|]. split; [|split; [exact Hblank|split; [exact Hnone|]]].
  - intros Hin. split.
    + apply (Hnorm "activa"); [discriminate | exact Hin].
    + apply (Hnorm "ACTIVA"); [discriminate | exact Hin].
  - intros es_de estado_de cumple almacen Hstore estado Hestado.
    assert (Hout : outcome (get_solicitudes_by_status env current_user estado especie
                              tipo_sangre urgencia localidad)
                   = Returns (List.filter
                                (fun s => es_de s (id current_user)
                                          && cumple s especie tipo_sangre urgencia localidad)
                                almacen)).
    { assert (Hq : get_solicitudes_by_status env current_user estado especie tipo_sangre
                     urgencia localidad
                   = ([EvFilterSolicitudes (id current_user) None especie tipo_sangre
                         urgencia localidad],
                      filter_solicitudes_by_owner_and_status env (id current_user) None
                        especie tipo_sangre urgencia localidad)).
      { destruct Hestado as [-> | [s [-> Hs]]]; [exact Hnone | apply Hblank; now left]. }
      rewrite Hq, Hstore. unfold filtrar_modelo, coincide_estado. simpl. f_equal.
      apply List.filter_ext. intros sol. now rewrite andb_true_r. }
    split; [exact Hout|].
    intros sol Hin Howner Hcumple. eexists. split; [exact Hout|].
    apply List.filter_In. split; [exact Hin|]. now rewrite Howner, Hcumple.
Qed.

Lemma filtrar_normalises_estado_witness :
  get_solicitudes_by_status Demo.env Demo.clinica (Some "ACTIVA") None None None None
  = ([EvFilterSolicitudes (JString "user_123") (Some "Activa") None None None None],
     Returns []) /\
  get_solicitudes_by_status Demo.env Demo.clinica (Some Casos.nbsp) None None None None
  = ([EvFilterSolicitudes (JString "user_123") None None None None None], Returns []) /\
  outcome (get_solicitudes_by_status Casos.env_con_almacen Demo.clinica (Some Casos.nbsp)
             None None None None)
  = Returns [Casos.activa; Casos.completada].
Proof.
  split; [|split].
  - apply (proj2 (proj1 (proj2
      (filtrar_normalises_estado Demo.env Demo.clinica None None None None))
      (or_introl eq_refl))).
  - apply (proj1 (proj2 (proj2
      (filtrar_normalises_estado Demo.env Demo.clinica None None None None)))
      Casos.nbsp (or_introl eq_refl)).
  - apply (proj1 (proj2 (proj2 (proj2 (proj2
      (filtrar_normalises_estado Casos.env_con_almacen Demo.clinica None None None None))))
      Casos.es_de Casos.estado_de (fun _ _ _ _ _ => true) Casos.almacen
      (fun _ _ _ _ _ _ => eq_refl)
      (Some Casos.nbsp) (or_intror (ex_intro _ Casos.nbsp (conj eq_refl eq_refl))))).
Defined.

(** ** Further properties of the auth delegation *)

Lemma bind_ret_r {E A} (m : M E A) : bind m (fun x => ret x) = m.
Proof.
  destruct m as [t [a|e]]; simpl; [|reflexivity]. now rewrite app_nil_r.
Qed.

(** X1: a reply of the profile service with a status other than 200 is
    answered with the 500 of the catch-all handler, and the profile call
    never ends in a 401, whatever the service does. *)
Theorem profile_call_never_401 {Solicitud} (env : Env Solicitud) (token : string) :
  (forall r, client_get env token = Returns r -> status_code r <> 200 ->
     get_user_profile_from_token env token
     = ([EvProfileGet token],
        Raises (HTTPException 500
                  (DetailText "Error interno del servidor de autenticación")))) /\
  (forall d, outcome (get_user_profile_from_token env token)
             <> Raises (HTTPException 401 d)).
Proof.
  split.
  - intros r Hget Hst. apply Z.eqb_neq in Hst.
    unfold get_user_profile_from_token, external, lift.
    rewrite Hget. simpl. now rewrite Hst.
  - intros d H.
    destruct (get_user_profile_from_token env token) as [t [p|e]] eqn:Hm;
      simpl in H; [discriminate|].
    injection H as ->.
    destruct (get_user_profile_raises env _ _ _ Hm) as [H5|H5]; simpl in H5; discriminate.
Qed.

Lemma profile_call_never_401_witness :
  get_user_profile_from_token Demo.env "t-viejo"
  = ([EvProfileGet "t-viejo"],
     Raises (HTTPException 500 (DetailText "Error interno del servidor de autenticación"))).
Proof.
  apply (proj1 (profile_call_never_401 Demo.env "t-viejo")
           (Demo.respuesta 401 (Raises Demo.no_es_json))).
  - reflexivity.
  - discriminate.
Defined.

(** X2: an exception raised inside the try block, by the request itself
    or by decoding the body of a 200, becomes a 503 when it is an
    httpx.RequestError and a 500 when it is of any other class. *)
Theorem profile_call_exception_status {Solicitud} (env : Env Solicitud) (token : string)
    (e : PyError) :
  client_get env token = Raises e \/
  (exists r, client_get env token = Returns r /\ status_code r = 200 /\
             json r = Raises e) ->
  exists d, get_user_profile_from_token env token
            = ([EvProfileGet token], Raises (HTTPException (status_for e) d)).
Proof.
  unfold get_user_profile_from_token, external, lift, status_for.
  intros [Hget|[r [Hget [Hst Hjson]]]]; rewrite Hget; simpl.
  - destruct e as [[] str]; simpl; eexists; reflexivity.
  - rewrite Hst. simpl. rewrite Hjson. simpl.
    destruct e as [[] str]; simpl; eexists; reflexivity.
Qed.

Lemma profile_call_exception_status_witness :
  exists d, get_user_profile_from_token Casos.env_sin_red "t-ok"
            = ([EvProfileGet "t-ok"], Raises (HTTPException 503 d)).
Proof.
  apply (profile_call_exception_status Casos.env_sin_red "t-ok" Casos.sin_conexion).
  left. reflexivity.
Defined.

(** X3: [get_current_user_id] is [get_current_user] followed by reading
    the id: the same calls, the id of the same user, the same exception. *)
Theorem current_user_id_is_id_of_current_user {Solicitud} (env : Env Solicitud)
    (req : Request) :
  get_current_user_id env req = bind (get_current_user env req) (fun u => ret (id u)).
Proof.
  unfold get_current_user_id, get_current_user.
  destruct (negb (PyStr.in_list _ _)); [reflexivity|].
  unfold bind, getitem, dict_get, ret, raise.
  destruct (get_user_profile_from_token env (credentials req)) as [t [body|e]];
    [|reflexivity].
  destruct body as [| | | | | |p]; try reflexivity.
  destruct (p !! "id") as [uid|]; simpl; [|reflexivity].
  now rewrite !app_nil_r.
Qed.

(** X4: [get_user_id_from_token] refuses a user type other than 'owner'
    and 'clinic' with the 400 before the profile service is contacted, and
    for a request that carries the header it is what [get_current_user_id]
    computes. *)
Theorem get_user_id_from_token_checks_type {Solicitud} (env : Env Solicitud)
    (token user_type : string) :
  (user_type <> "owner" -> user_type <> "clinic" ->
   get_user_id_from_token env token user_type
   = ([], Raises (HTTPException 400
                    (DetailText "userType inválido. Debe ser 'owner' o 'clinic'")))) /\
  get_current_user_id env {| credentials := token; x_user_type := Some user_type |}
  = get_user_id_from_token env token user_type.
Proof.
  split; [|reflexivity].
  intros Ho Hc. unfold get_user_id_from_token.
  destruct (PyStr.in_list user_type ["owner"; "clinic"]) eqn:Hin; [|reflexivity].
  apply in_list_owner_clinic in Hin. tauto.
Qed.

Lemma get_user_id_from_token_checks_type_witness :
  get_user_id_from_token Demo.env "t-ok" "Clinic"
  = ([], Raises (HTTPException 400
                   (DetailText "userType inválido. Debe ser 'owner' o 'clinic'"))).
Proof.
  apply (proj1 (get_user_id_from_token_checks_type Demo.env "t-ok" "Clinic"));
    discriminate.
Defined.

(** X5: the id dependencies do not look at which of the accepted user
    types was sent: with the same token, 'owner', 'clinic' and no header
    give the same result, and the clinic and owner variants are the same
    function. *)
Theorem id_dependencies_ignore_user_type {Solicitud} (env : Env Solicitud)
    (token : string) (h1 h2 : option string) :
  PyStr.in_list (user_type_or_default h1) ["owner"; "clinic"] = true ->
  PyStr.in_list (user_type_or_default h2) ["owner"; "clinic"] = true ->
  get_current_user_id_clinic env {| credentials := token; x_user_type := h1 |}
  = get_current_user_id_clinic env {| credentials := token; x_user_type := h2 |} /\
  get_current_user_id_owner env {| credentials := token; x_user_type := h1 |}
  = get_current_user_id_clinic env {| credentials := token; x_user_type := h1 |}.
Proof.
  intros H1 H2. split; [|reflexivity].
  unfold get_current_user_id_clinic, get_current_user_id.
  cbn [x_user_type credentials]. now rewrite H1, H2.
Qed.

Lemma id_dependencies_ignore_user_type_witness :
  get_current_user_id_clinic Demo.env (Demo.req "t-ok" (Some "owner"))
  = get_current_user_id_clinic Demo.env (Demo.req "t-ok" None).
Proof.
  apply (proj1 (id_dependencies_ignore_user_type Demo.env "t-ok" (Some "owner") None
                  eq_refl eq_refl)).
Defined.

(** ** Further properties of the guards and the routes *)

Lemma verify_user_type_one (u : AuthenticatedUser) (t : UserType) :
  verify_user_type u [t] =
  if String.eqb (userType u) (UserType_value t) then ([], Returns true)
  else ([], Raises (HTTPException 403 (DetailText
         ("Acceso denegado. Se requiere uno de los siguientes tipos: "
          +:+ UserType_value t)))).
Proof.
  unfold verify_user_type, PyStr.in_list. simpl.
  destruct (String.eqb (userType u) (UserType_value t)); reflexivity.
Qed.

(** A guard that checks for one type, after [get_current_user]. *)
Lemma guard_after_current_user {Solicitud} (env : Env Solicitud) (req : Request)
    (t : UserType) :
  bind (get_current_user env req)
       (fun current_user => bind (verify_user_type current_user [t])
                                 (fun _ => ret current_user))
  = match get_current_user env req with
    | (tr, Returns u) =>
        if String.eqb (userType u) (UserType_value t) then (tr, Returns u)
        else (tr, Raises (HTTPException 403 (DetailText
               ("Acceso denegado. Se requiere uno de los siguientes tipos: "
                +:+ UserType_value t))))
    | (tr, Raises e) => (tr, Raises e)
    end.
Proof.
  destruct (get_current_user env req) as [tr [u|e]]; [|reflexivity].
  unfold bind at 1. rewrite verify_user_type_one.
  destruct (String.eqb (userType u) (UserType_value t)); simpl; now rewrite app_nil_r.
Qed.

(** X6: a user let through by the clinic guard has userType 'clinic' and
    is refused by the owner guard with a 403, and the other way round; no
    request passes both guards. *)
Theorem guards_are_exclusive {Solicitud} (env : Env Solicitud) (req : Request)
    (u : AuthenticatedUser) :
  (outcome (get_current_user_clinic env req) = Returns u ->
   userType u = "clinic" /\
   outcome (get_current_user_owner env req)
   = Raises (HTTPException 403 (DetailText
       "Acceso denegado. Se requiere uno de los siguientes tipos: owner"))) /\
  (outcome (get_current_user_owner env req) = Returns u ->
   userType u = "owner" /\
   outcome (get_current_user_clinic env req)
   = Raises (HTTPException 403 (DetailText
       "Acceso denegado. Se requiere uno de los siguientes tipos: clinic"))).
Proof.
  unfold get_current_user_clinic, get_current_user_owner.
  rewrite !guard_after_current_user.
  destruct (get_current_user env req) as [tr [v|e]]; simpl;
    [|split; discriminate].
  destruct (String.eqb (userType v) "clinic") eqn:Hc;
    destruct (String.eqb (userType v) "owner") eqn:Ho; simpl.
  - apply String.eqb_eq in Hc, Ho. rewrite Hc in Ho. discriminate.
  - apply String.eqb_eq in Hc. split; [|discriminate].
    intros [= <-]. split; [assumption | reflexivity].
  - apply String.eqb_eq in Ho. split; [discriminate|].
    intros [= <-]. split; [assumption | reflexivity].
  - split; discriminate.
Qed.

Lemma guards_are_exclusive_witness :
  userType Demo.clinica = "clinic" /\
  outcome (get_current_user_owner Demo.env (Demo.req "t-ok" (Some "clinic")))
  = Raises (HTTPException 403 (DetailText
      "Acceso denegado. Se requiere uno de los siguientes tipos: owner")).
Proof.
  apply (proj1 (guards_are_exclusive Demo.env (Demo.req "t-ok" (Some "clinic"))
                  Demo.clinica)).
  reflexivity.
Defined.

(** X7: a request without the X-User-Type header and with a token whose
    profile has an id is refused by the owner guard: the profile service is
    asked, the default 'clinic' is applied, and the guard raises the 403. *)
Theorem missing_header_fails_owner_guard {Solicitud} (env : Env Solicitud) (req : Request)
    (r : Response) (p : gmap string Json) (uid : Json) :
  x_user_type req = None ->
  client_get env (credentials req) = Returns r ->
  status_code r = 200 ->
  json r = Returns (JObject p) ->
  p !! "id" = Some uid ->
  get_current_user_owner env req
  = ([EvProfileGet (credentials req)],
     Raises (HTTPException 403 (DetailText
       "Acceso denegado. Se requiere uno de los siguientes tipos: owner"))).
Proof.
  intros Hnone Hget Hst Hjson Hid.
  assert (Hty : PyStr.in_list (user_type_or_default (x_user_type req)) ["owner"; "clinic"]
                = true) by now rewrite Hnone.
  unfold get_current_user_owner. rewrite guard_after_current_user.
  rewrite (get_current_user_returns env req r p uid Hty Hget Hst Hjson Hid).
  rewrite Hnone. reflexivity.
Qed.

Lemma missing_header_fails_owner_guard_witness :
  get_current_user_owner Demo.env (Demo.req "t-ok" None)
  = ([EvProfileGet "t-ok"],
     Raises (HTTPException 403 (DetailText
       "Acceso denegado. Se requiere uno de los siguientes tipos: owner"))).
Proof.
  apply (missing_header_fails_owner_guard Demo.env (Demo.req "t-ok" None)
           (Demo.respuesta 200 (Returns (JObject Demo.perfil))) Demo.perfil (JString "user_123"));
    reflexivity.
Defined.

(** X8: [verify_user_type] returns True exactly when the user's type is
    the value of one of the allowed types and raises the 403 otherwise; with
    an empty list of allowed types it refuses every user.  It contacts
    nothing. *)
Theorem verify_user_type_membership (u : AuthenticatedUser) (allowed_types : list UserType) :
  trace (verify_user_type u allowed_types) = [] /\
  (outcome (verify_user_type u allowed_types) = Returns true
   <-> exists t, In t allowed_types /\ userType u = UserType_value t) /\
  ((forall t, In t allowed_types -> userType u <> UserType_value t) ->
   outcome (verify_user_type u allowed_types)
   = Raises (HTTPException 403 (DetailText
       ("Acceso denegado. Se requiere uno de los siguientes tipos: "
        +:+ PyStr.join ", " (map UserType_value allowed_types))))) /\
  outcome (verify_user_type u [])
  = Raises (HTTPException 403 (DetailText
      "Acceso denegado. Se requiere uno de los siguientes tipos: ")).
Proof.
  unfold verify_user_type.
  destruct (PyStr.in_list (userType u) (map UserType_value allowed_types)) eqn:Hin; simpl.
  - apply in_list_In in Hin. apply in_map_iff in Hin. destruct Hin as [t [Hv Ht]].
    split; [reflexivity|]. split; [|split; [|reflexivity]].
    + split; [|reflexivity]. intros _. exists t. auto.
    + intros Hno. elim (Hno t Ht). now symmetry.
  - split; [reflexivity|]. split; [|split; reflexivity].
    split; [discriminate|].
    intros [t [Ht Hv]].
    assert (Hyes : PyStr.in_list (userType u) (map UserType_value allowed_types) = true).
    { apply in_list_In. apply in_map_iff. exists t. auto. }
    rewrite Hyes in Hin. discriminate.
Qed.

Lemma verify_user_type_membership_witness :
  outcome (verify_user_type Casos.duena [CLINIC])
  = Raises (HTTPException 403 (DetailText
      "Acceso denegado. Se requiere uno de los siguientes tipos: clinic")).
Proof.
  apply (proj1 (proj2 (proj2 (verify_user_type_membership Casos.duena [CLINIC])))).
  intros t [<-|[]]. discriminate.
Defined.

(** The dependencies contact the profile service once, or not at all. *)
Lemma get_current_user_trace {Solicitud} (env : Env Solicitud) (req : Request) :
  trace (get_current_user env req) = [] \/
  trace (get_current_user env req) = [EvProfileGet (credentials req)].
Proof.
  unfold get_current_user.
  destruct (negb (PyStr.in_list _ _)); [left; reflexivity|]. right.
  rewrite trace_bind.
  pose proof (get_user_profile_trace env (credentials req)) as Ht.
  destruct (get_user_profile_from_token env (credentials req)) as [t [p|e]];
    simpl in Ht; subst t; [|reflexivity].
  unfold getitem, dict_get. destruct p as [| | | | | |p]; try reflexivity.
  destruct (p !! "id"); reflexivity.
Qed.

Lemma guard_trace {Solicitud} (env : Env Solicitud) (req : Request) (t : UserType) :
  let m := bind (get_current_user env req)
                (fun current_user => bind (verify_user_type current_user [t])
                                          (fun _ => ret current_user)) in
  trace m = [] \/ trace m = [EvProfileGet (credentials req)].
Proof.
  cbv zeta. rewrite guard_after_current_user.
  pose proof (get_current_user_trace env req) as H.
  destruct (get_current_user env req) as [tr [u|e]]; simpl in H |- *; [|exact H].
  destruct (String.eqb _ _); exact H.
Qed.

Lemma get_current_user_id_trace {Solicitud} (env : Env Solicitud) (req : Request) :
  trace (get_current_user_id env req) = [] \/
  trace (get_current_user_id env req) = [EvProfileGet (credentials req)].
Proof.
  unfold get_current_user_id.
  destruct (negb (PyStr.in_list _ _)); [left; reflexivity|]. right.
  rewrite trace_bind.
  pose proof (get_user_profile_trace env (credentials req)) as Ht.
  destruct (get_user_profile_from_token env (credentials req)) as [t [p|e]];
    simpl in Ht; subst t; [|reflexivity].
  unfold getitem. destruct p as [| | | | | |p]; try reflexivity.
  destruct (p !! "id"); reflexivity.
Qed.

(** X9: when the guard of a route raises, the route raises the same
    exception with the same trace: the handler is not run, so nothing is
    read from the store for a refused request, and for the create route
    nothing is validated, uploaded or written. *)
Theorem routes_stop_at_failed_guard {Solicitud} (env : Env Solicitud) (req : Request)
    (t : list Event) (e : exn)
    (estado especie tipo_sangre urgencia localidad : option string)
    (solicitud_id : string) (form : SolicitudForm) (foto_mascota : option string) :
  (get_current_user_clinic env req = (t, Raises e) ->
   route_get_all env req = (t, Raises e) /\
   route_filtrar env req estado especie tipo_sangre urgencia localidad = (t, Raises e) /\
   route_get_by_id env req solicitud_id = (t, Raises e) /\
   (t = [] \/ t = [EvProfileGet (credentials req)])) /\
  (get_current_user_id_clinic env req = (t, Raises e) ->
   route_create env req form foto_mascota = (t, Raises e) /\
   (t = [] \/ t = [EvProfileGet (credentials req)])).
Proof.
  split.
  - intros Hg. unfold route_get_all, route_filtrar, route_get_by_id. rewrite Hg.
    repeat split.
    pose proof (guard_trace env req CLINIC) as Ht. cbv zeta in Ht.
    fold (get_current_user_clinic env req) in Ht. rewrite Hg in Ht. exact Ht.
  - intros Hg. unfold route_create. rewrite Hg. split; [reflexivity|].
    unfold get_current_user_id_clinic in Hg. rewrite bind_ret_r in Hg.
    pose proof (get_current_user_id_trace env req) as Ht. rewrite Hg in Ht. exact Ht.
Qed.

Lemma routes_stop_at_failed_guard_witness :
  route_create Demo.env (Demo.req "t-viejo" (Some "clinic")) Demo.form (Some "png")
  = ([EvProfileGet "t-viejo"],
     Raises (HTTPException 500 (DetailText "Error interno del servidor de autenticación"))).
Proof.
  apply (proj1 (proj2 (routes_stop_at_failed_guard Demo.env
                         (Demo.req "t-viejo" (Some "clinic"))
                         [EvProfileGet "t-viejo"]
                         (HTTPException 500
                            (DetailText "Error interno del servidor de autenticación"))
                         None None None None None "" Demo.form (Some "png"))
                      eq_refl)).
Defined.

Lemma read_handlers_no_profile_get {Solicitud} (env : Env Solicitud) (u : AuthenticatedUser)
    (estado especie tipo_sangre urgencia localidad : option string) (solicitud_id : string) :
  Forall (fun ev => is_profile_get ev = false) (trace (get_all_solicitudes env u)) /\
  Forall (fun ev => is_profile_get ev = false)
         (trace (get_solicitudes_by_status env u estado especie tipo_sangre urgencia
                                           localidad)) /\
  Forall (fun ev => is_profile_get ev = false) (trace (get_solicitud_by_id env solicitud_id u)).
Proof.
  split; [|split].
  - unfold get_all_solicitudes, external. simpl. forall_events.
  - unfold get_solicitudes_by_status.
    destruct (validar_estado env estado) as [[|err errs] estado']; [|forall_events].
    rewrite bind_external_ret. forall_events.
  - unfold get_solicitud_by_id, external.
    destruct (get_solicitud_by_id_and_owner env solicitud_id (id u)) as [[s|]|e];
      forall_events.
Qed.

Lemma create_handler_no_profile_get {Solicitud} (env : Env Solicitud) (uid : Json)
    (form : SolicitudForm) (foto_mascota : option string) :
  Forall (fun ev => is_profile_get ev = false)
         (trace (create_solicitud env uid form foto_mascota)).
Proof.
  apply Forall_forall. intros ev Hev. apply list_elem_of_In in Hev.
  destruct (create_solicitud_trace env _ _ _ _ Hev) as [[f [_ ->]]|[u' [v [_ ->]]]];
    reflexivity.
Qed.

Lemma asks_once_after_guard {E A B} (req : Request) (guard : M E A) (handler : A -> M E B) :
  (trace guard = [] \/ trace guard = [EvProfileGet (credentials req)]) ->
  (forall a, outcome guard = Returns a -> trace guard = [EvProfileGet (credentials req)]) ->
  (forall a, Forall (fun ev => is_profile_get ev = false) (trace (handler a))) ->
  asks_profile_once req (trace (bind guard handler)).
Proof.
  intros Hg Hret Hh. rewrite trace_bind. destruct guard as [t [a|e]]; simpl in *.
  - rewrite (Hret a eq_refl). right. eexists. split; [reflexivity | apply Hh].
  - destruct Hg as [->| ->]; [left; reflexivity|].
    right. exists []. split; [reflexivity | constructor].
Qed.

(** X10: on each of the four routes the profile service is contacted at
    most once, with the token of the request and before anything else; no
    route repeats the call. *)
Theorem routes_ask_profile_once {Solicitud} (env : Env Solicitud) (req : Request)
    (estado especie tipo_sangre urgencia localidad : option string)
    (solicitud_id : string) (form : SolicitudForm) (foto_mascota : option string) :
  asks_profile_once req (trace (route_get_all env req)) /\
  asks_profile_once req
    (trace (route_filtrar env req estado especie tipo_sangre urgencia localidad)) /\
  asks_profile_once req (trace (route_get_by_id env req solicitud_id)) /\
  asks_profile_once req (trace (route_create env req form foto_mascota)).
Proof.
  pose proof (guard_trace env req CLINIC) as Hg. cbv zeta in Hg.
  fold (get_current_user_clinic env req) in Hg.
  pose proof (get_current_user_clinic_cases env req) as Hc.
  assert (Hret : forall u, outcome (get_current_user_clinic env req) = Returns u ->
                           trace (get_current_user_clinic env req)
                           = [EvProfileGet (credentials req)]).
  { intros u Hu. destruct (get_current_user_clinic env req) as [t [v|e]];
      simpl in Hu; [|discriminate]. simpl. apply Hc. }
  unfold route_get_all, route_filtrar, route_get_by_id, route_create.
  repeat split.
  - apply asks_once_after_guard; auto.
    intros u. apply (read_handlers_no_profile_get env u None None None None None "").
  - apply asks_once_after_guard; auto.
    intros u. apply (read_handlers_no_profile_get env u estado especie tipo_sangre
                       urgencia localidad "").
  - apply asks_once_after_guard; auto.
    intros u. apply (read_handlers_no_profile_get env u None None None None None
                       solicitud_id).
  - unfold get_current_user_id_clinic. rewrite bind_ret_r.
    pose proof (get_current_user_id_cases env req) as Hi.
    apply asks_once_after_guard.
    + apply get_current_user_id_trace.
    + intros uid Hu. destruct (get_current_user_id env req) as [t [v|e]];
        simpl in Hu; [|discriminate]. simpl. apply Hi.
    + intros uid. apply create_handler_no_profile_get.
Qed.

Lemma bind_returns {E A B} (t : list Event) (a : A) (f : A -> M E B) :
  bind (t, Returns a) f = (t ++ trace (f a), outcome (f a)).
Proof.
  unfold bind. destruct (f a); reflexivity.
Qed.

(** X11: for a request with the header 'clinic', or with none, and a token
    whose profile has an id, each read route asks the profile service and
    then the store, once each, with that id as owner, and answers what the
    store answers: the list for the owner, the list for the owner with no
    status filter when [estado] is absent, and the solicitud or the 404 for
    the lookup by id. *)
Theorem read_routes_end_to_end {Solicitud} (env : Env Solicitud) (req : Request)
    (r : Response) (p : gmap string Json) (uid : Json)
    (especie tipo_sangre urgencia localidad : option string) (solicitud_id : string) :
  x_user_type req = None \/ x_user_type req = Some "clinic" ->
  client_get env (credentials req) = Returns r ->
  status_code r = 200 ->
  json r = Returns (JObject p) ->
  p !! "id" = Some uid ->
  route_get_all env req
  = ([EvProfileGet (credentials req); EvGetSolicitudesByOwner uid],
     get_solicitudes_by_owner env uid) /\
  route_filtrar env req None especie tipo_sangre urgencia localidad
  = ([EvProfileGet (credentials req);
      EvFilterSolicitudes uid None especie tipo_sangre urgencia localidad],
     filter_solicitudes_by_owner_and_status env uid None especie tipo_sangre urgencia
       localidad) /\
  route_get_by_id env req solicitud_id
  = ([EvProfileGet (credentials req); EvGetSolicitudByIdAndOwner solicitud_id uid],
     found_or_404 (get_solicitud_by_id_and_owner env solicitud_id uid)).
Proof.
  intros Hh Hget Hst Hjson Hid.
  assert (Hdef : user_type_or_default (x_user_type req) = "clinic")
    by (destruct Hh as [-> | ->]; reflexivity).
  assert (Hty : PyStr.in_list (user_type_or_default (x_user_type req)) ["owner"; "clinic"]
                = true) by now rewrite Hdef.
  assert (Hguard : get_current_user_clinic env req
                   = ([EvProfileGet (credentials req)],
                      Returns {| id := uid;
                                 email := default (JString "user@example.com") (p !! "email");
                                 userType := "clinic" |})).
  { unfold get_current_user_clinic. rewrite guard_after_current_user.
    rewrite (get_current_user_returns env req r p uid Hty Hget Hst Hjson Hid).
    rewrite Hdef. reflexivity. }
  unfold route_get_all, route_filtrar, route_get_by_id. rewrite Hguard.
  rewrite !bind_returns. cbn [id].
  split; [|split].
  - reflexivity.
  - unfold get_solicitudes_by_status. simpl validar_estado. cbv iota beta.
    rewrite bind_external_ret. reflexivity.
  - unfold get_solicitud_by_id, external. cbn [id].
    destruct (get_solicitud_by_id_and_owner env solicitud_id uid) as [[s|]|e]; reflexivity.
Qed.

Lemma read_routes_end_to_end_witness :
  route_get_by_id Demo.env (Demo.req "t-ok" None) "684a01e4c351aa9d49b145b8"
  = ([EvProfileGet "t-ok"; EvGetSolicitudByIdAndOwner "684a01e4c351aa9d49b145b8" (JString "user_123")],
     Raises (HTTPException 404 (DetailText "Solicitud no encontrada"))).
Proof.
  apply (proj2 (proj2
    (read_routes_end_to_end Demo.env (Demo.req "t-ok" None)
       (Demo.respuesta 200 (Returns (JObject Demo.perfil))) Demo.perfil (JString "user_123")
       None None None None "684a01e4c351aa9d49b145b8"
       (or_introl eq_refl) eq_refl eq_refl eq_refl eq_refl))).
Defined.

(** ** Further properties of the create handler *)

(** X12: when the constructor of the schema rejects the form, the create
    handler raises the 422 whose detail lists one line "field: message" per
    error, in order, with "unknown" for an error without location; the file
    is not uploaded and the store is not called. *)
Theorem create_solicitud_invalid_form {Solicitud} (env : Env Solicitud)
    (current_user_id : Json) (form : SolicitudForm) (foto_mascota : option string)
    (errors : list ErrorItem) :
  SolicitudCreateWithImage env form = Raises errors ->
  create_solicitud env current_user_id form foto_mascota
  = ([], Raises (HTTPException 422
                   (DetailValidation "Error de validación en los datos de la solicitud"
                                     (map error_line errors)))) /\
  length (map error_line errors) = length errors /\
  (forall m, error_line {| loc := []; msg := m |} = "unknown: " +:+ m) /\
  (forall field rest m, error_line {| loc := field :: rest; msg := m |}
                        = field +:+ ": " +:+ m).
Proof.
  intros Hval. unfold create_solicitud. rewrite Hval.
  split; [reflexivity|]. split; [apply length_map|]. split; reflexivity.
Qed.

Lemma create_solicitud_invalid_form_witness :
  create_solicitud Casos.env_form_invalido (JString "user_123") Demo.form (Some "png")
  = ([], Raises (HTTPException 422
                   (DetailValidation "Error de validación en los datos de la solicitud"
                      ["peso_minimo: Input should be greater than 0";
                       "unknown: Value error"]))).
Proof.
  apply (proj1 (create_solicitud_invalid_form Casos.env_form_invalido (JString "user_123") Demo.form
                  (Some "png") Casos.errores eq_refl)).
Defined.

(** X13: for a form the schema accepts, the create handler uploads the
    file first, when there is one, under the id it has drawn for the
    solicitud, then writes the document once, and answers what the store
    answers; an upload that succeeded is followed by nothing else when the
    store raises. *)
Theorem create_solicitud_effects {Solicitud} (env : Env Solicitud)
    (current_user_id : Json) (form v : SolicitudForm) :
  SolicitudCreateWithImage env form = Returns v ->
  create_solicitud env current_user_id form None
  = ([EvCreateSolicitudWithOwner (nueva_solicitud env (token_hex_12 env) VNone v)
        current_user_id],
     create_solicitud_with_owner env (nueva_solicitud env (token_hex_12 env) VNone v)
       current_user_id) /\
  (forall file url,
     upload_image env file (token_hex_12 env) = Returns url ->
     create_solicitud env current_user_id form (Some file)
     = ([EvUploadImage file (token_hex_12 env);
         EvCreateSolicitudWithOwner (nueva_solicitud env (token_hex_12 env) (VStr url) v)
           current_user_id],
        create_solicitud_with_owner env
          (nueva_solicitud env (token_hex_12 env) (VStr url) v) current_user_id)).
Proof.
  intros Hval. unfold create_solicitud, external. rewrite Hval. simpl.
  split.
  - destruct (create_solicitud_with_owner env _ current_user_id); reflexivity.
  - intros file url Hup. rewrite Hup. simpl.
    destruct (create_solicitud_with_owner env _ current_user_id); reflexivity.
Qed.

Lemma create_solicitud_effects_witness :
  create_solicitud Demo.env (JString "user_123") Demo.form None
  = ([EvCreateSolicitudWithOwner
        (nueva_solicitud Demo.env (token_hex_12 Demo.env) VNone Demo.form) (JString "user_123")],
     create_solicitud_with_owner Demo.env
       (nueva_solicitud Demo.env (token_hex_12 Demo.env) VNone Demo.form) (JString "user_123")).
Proof.
  apply (proj1 (create_solicitud_effects Demo.env (JString "user_123") Demo.form Demo.form eq_refl)).
Defined.

(** X14: in the document of a new solicitud the keys "id", "fecha_creacion",
    "estado" and "foto_mascota" hold the drawn id, the time of creation,
    "Activa" and the URL of the image (None without image), no form field
    overwrites them, and every field of the validated form is stored under
    its own key with its own value. *)
Theorem nueva_solicitud_contents {Solicitud} (env : Env Solicitud) (solicitud_id : string)
    (foto_url : Value) (v : SolicitudForm) :
  let doc := nueva_solicitud env solicitud_id foto_url v in
  doc !! "id" = Some (VStr solicitud_id) /\
  doc !! "fecha_creacion" = Some (VStr (now_isoformat env)) /\
  doc !! "foto_mascota" = Some foto_url /\
  model_dump v ⊆ doc /\
  doc !! "peso_minimo" = Some (VFloat (peso_minimo v)) /\
  doc !! "urgencia" = Some (VStr (urgencia v)) /\
  size doc = 15%nat.
Proof.
  cbv zeta.
  assert (Hnone : forall k, k = "id" \/ k = "fecha_creacion" \/ k = "estado" \/
                            k = "foto_mascota" -> model_dump v !! k = None).
  { intros k Hk. unfold model_dump.
    destruct Hk as [-> | [-> | [-> | ->]]];
      repeat (rewrite lookup_insert_ne by discriminate); apply lookup_empty. }
  unfold nueva_solicitud.
  split; [|split; [|split; [|split; [|split; [|split]]]]].
  - rewrite lookup_union_r by (apply Hnone; auto). apply lookup_insert_eq.
  - rewrite lookup_union_r by (apply Hnone; auto).
    rewrite lookup_insert_ne by discriminate. apply lookup_insert_eq.
  - rewrite lookup_union_r by (apply Hnone; auto 6).
    repeat (rewrite lookup_insert_ne by discriminate). apply lookup_insert_eq.
  - apply map_union_subseteq_l.
  - apply lookup_union_Some_l. unfold model_dump.
    repeat (rewrite lookup_insert_ne by discriminate). apply lookup_insert_eq.
  - apply lookup_union_Some_l. unfold model_dump.
    repeat (rewrite lookup_insert_ne by discriminate). apply lookup_insert_eq.
  - rewrite map_size_disj_union.
    + unfold model_dump.
      repeat (rewrite map_size_insert_None;
              [| repeat (rewrite lookup_insert_ne by discriminate); apply lookup_empty]).
      rewrite map_size_empty. reflexivity.
    + apply map_disjoint_spec. intros k x y Hx Hy.
      assert (Hk : k = "id" \/ k = "fecha_creacion" \/ k = "estado" \/ k = "foto_mascota").
      { repeat (apply lookup_insert_Some in Hy; destruct Hy as [[<- _]|[_ Hy]]; [auto 6|]).
        rewrite lookup_empty in Hy. discriminate. }
      rewrite (Hnone k Hk) in Hx. discriminate.
Qed.

(** ** Further properties of the filter handler *)

Lemma case_maps_settle (c : ascii) :
  PyStr.upper (PyStr.upper c) = PyStr.upper c /\
  PyStr.lower (PyStr.lower c) = PyStr.lower c /\
  PyStr.is_cased (PyStr.upper c) = PyStr.is_cased c /\
  PyStr.is_cased (PyStr.lower c) = PyStr.is_cased c /\
  PyStr.is_space (PyStr.upper c) = PyStr.is_space c /\
  PyStr.is_space (PyStr.lower c) = PyStr.is_space c /\
  PyStr.is_ascii_char (PyStr.upper c) = PyStr.is_ascii_char c /\
  PyStr.is_ascii_char (PyStr.lower c) = PyStr.is_ascii_char c.
Proof.
  destruct c as [[] [] [] [] [] [] [] []]; vm_compute; repeat split.
Qed.

Lemma title_from_idempotent (s : string) (b : bool) :
  PyStr.title_from b (PyStr.title_from b s) = PyStr.title_from b s.
Proof.
  revert b. induction s as [|c s IH]; intros b; [reflexivity|].
  destruct (case_maps_settle c) as [Hu [Hl [Hcu [Hcl _]]]].
  simpl. destruct b.
  - rewrite Hl, Hcl, IH. reflexivity.
  - rewrite Hu, Hcu, IH. reflexivity.
Qed.

Lemma ascii_blank_title_from (s : string) (b : bool) :
  ascii_blank (PyStr.title_from b s) = ascii_blank s.
Proof.
  revert b. induction s as [|c s IH]; intros b; [reflexivity|].
  destruct (case_maps_settle c) as [_ [_ [_ [_ [Hsu [Hsl _]]]]]].
  simpl. rewrite IH. destruct b; [rewrite Hsl | rewrite Hsu]; reflexivity.
Qed.

Lemma is_ascii_title_from (s : string) (b : bool) :
  PyStr.is_ascii (PyStr.title_from b s) = PyStr.is_ascii s.
Proof.
  revert b. induction s as [|c s IH]; intros b; [reflexivity|].
  destruct (case_maps_settle c) as [_ [_ [_ [_ [_ [_ [Hau Hal]]]]]]].
  simpl. rewrite IH. destruct b; [rewrite Hal | rewrite Hau]; reflexivity.
Qed.

(** No whitespace character of two or three bytes starts with an ASCII
    byte. *)
Lemma ascii_starts_no_wide_space (c : ascii) (b1 b2 : N) :
  PyStr.is_ascii_char c = true ->
  PyStr.is_space2 (PyStr.byte c) b1 = false /\
  PyStr.is_space3 (PyStr.byte c) b1 b2 = false.
Proof.
  unfold PyStr.is_ascii_char, PyStr.is_space2, PyStr.is_space3.
  intros Hc. apply N.ltb_lt in Hc.
  assert (H2 : (PyStr.byte c =? 0xC2)%N = false) by (apply N.eqb_neq; lia).
  assert (H1 : (PyStr.byte c =? 0xE1)%N = false) by (apply N.eqb_neq; lia).
  assert (H3 : (PyStr.byte c =? 0xE2)%N = false) by (apply N.eqb_neq; lia).
  assert (H4 : (PyStr.byte c =? 0xE3)%N = false) by (apply N.eqb_neq; lia).
  rewrite H1, H2, H3, H4. split; reflexivity.
Qed.

(** A string that begins with an ASCII character other than whitespace
    loses nothing on the left and is not blank. *)
Lemma ascii_head_stays (c : ascii) (r : string) :
  PyStr.is_ascii_char c = true ->
  PyStr.is_space c = false ->
  PyStr.lstrip (String c r) = String c r /\ PyStr.all_space (String c r) = false.
Proof.
  intros Ha Hc. simpl. rewrite Hc.
  destruct r as [|c1 r1]; [split; reflexivity|].
  destruct (ascii_starts_no_wide_space c (PyStr.byte c1) 0 Ha) as [H2 _]. rewrite H2.
  destruct r1 as [|c2 r2]; [split; reflexivity|].
  destruct (ascii_starts_no_wide_space c (PyStr.byte c1) (PyStr.byte c2) Ha) as [_ H3].
  rewrite H3. split; reflexivity.
Qed.

Lemma lstrip_ascii (s : string) :
  PyStr.is_ascii s = true ->
  if ascii_blank s then PyStr.lstrip s = ""
  else exists c r, PyStr.lstrip s = String c r /\
                   PyStr.is_ascii_char c = true /\ PyStr.is_space c = false.
Proof.
  induction s as [|c s IH]; [reflexivity|].
  intros Ha. simpl in Ha. apply andb_prop in Ha. destruct Ha as [Hc Hs].
  simpl ascii_blank. destruct (PyStr.is_space c) eqn:Hsp.
  - simpl andb. specialize (IH Hs). simpl PyStr.lstrip. rewrite Hsp. exact IH.
  - simpl andb. destruct (ascii_head_stays c s Hc Hsp) as [Hl _]. eauto.
Qed.

(** On ASCII text [strip] leaves nothing exactly of the blank strings. *)
Lemma strip_truthy_ascii (s : string) :
  PyStr.is_ascii s = true ->
  PyStr.truthy (PyStr.strip s) = negb (ascii_blank s).
Proof.
  intros Ha. unfold PyStr.strip. pose proof (lstrip_ascii s Ha) as H.
  destruct (ascii_blank s).
  - rewrite H. reflexivity.
  - destruct H as [c [r [-> [Hc Hsp]]]].
    destruct (ascii_head_stays c r Hc Hsp) as [_ Hall].
    change (PyStr.rstrip (String c r))
      with (if PyStr.all_space (String c r) then "" else String c (PyStr.rstrip r)).
    rewrite Hall. reflexivity.
Qed.

Lemma truthy_title_ascii (s : string) :
  PyStr.truthy (PyStr.title_ascii s) = PyStr.truthy s.
Proof.
  destruct s; reflexivity.
Qed.

Lemma str_title_ascii {Solicitud} (env : Env Solicitud) (s : string) :
  PyStr.is_ascii s = true -> str_title env s = PyStr.title_ascii s.
Proof.
  intros Ha. unfold str_title, PyStr.title. now rewrite Ha.
Qed.

(** X15: the filter handler does not tell an ASCII [estado] from its
    title-case form: sending it and sending [estado.title()] give the same
    store call and the same answer, so the case of the letters of [estado]
    never matters. *)
Theorem filtrar_ignores_case {Solicitud} (env : Env Solicitud)
    (current_user : AuthenticatedUser) (estado : string)
    (especie tipo_sangre urgencia localidad : option string) :
  PyStr.is_ascii estado = true ->
  get_solicitudes_by_status env current_user (Some estado) especie tipo_sangre urgencia
                            localidad
  = get_solicitudes_by_status env current_user (Some (str_title env estado)) especie
                              tipo_sangre urgencia localidad.
Proof.
  intros Ha.
  assert (Hat : PyStr.is_ascii (PyStr.title_ascii estado) = true)
    by (unfold PyStr.title_ascii; now rewrite is_ascii_title_from).
  unfold get_solicitudes_by_status, validar_estado.
  rewrite (str_title_ascii env estado Ha), (str_title_ascii env _ Hat).
  rewrite truthy_title_ascii, (strip_truthy_ascii _ Ha), (strip_truthy_ascii _ Hat).
  replace (ascii_blank (PyStr.title_ascii estado)) with (ascii_blank estado)
    by (symmetry; apply ascii_blank_title_from).
  replace (PyStr.title_ascii (PyStr.title_ascii estado)) with (PyStr.title_ascii estado)
    by (symmetry; apply title_from_idempotent).
  destruct (PyStr.truthy estado && negb (ascii_blank estado)); [|reflexivity].
  destruct (PyStr.in_list (PyStr.title_ascii estado) (ESTADOS_PERMITIDOS env)); reflexivity.
Qed.

Lemma filtrar_ignores_case_witness :
  get_solicitudes_by_status Demo.env Demo.clinica (Some "aCTIVA") None None None None
  = get_solicitudes_by_status Demo.env Demo.clinica (Some (str_title Demo.env "aCTIVA"))
      None None None None.
Proof.
  apply (filtrar_ignores_case Demo.env Demo.clinica "aCTIVA" None None None None).
  reflexivity.
Defined.

(** X16: the only call the filter handler makes is one query of the store
    for the id of the current user, with [especie], [tipo_sangre],
    [urgencia] and [localidad] exactly as received and with a status that is
    either absent or one of the permitted values: a status outside
    ESTADOS_PERMITIDOS never reaches the store. *)
Theorem filtrar_queries_permitted_estado {Solicitud} (env : Env Solicitud)
    (current_user : AuthenticatedUser)
    (estado especie tipo_sangre urgencia localidad : option string) :
  trace (get_solicitudes_by_status env current_user estado especie tipo_sangre urgencia
                                   localidad) = [] \/
  exists filtro,
    trace (get_solicitudes_by_status env current_user estado especie tipo_sangre urgencia
                                     localidad)
    = [EvFilterSolicitudes (id current_user) filtro especie tipo_sangre urgencia localidad] /\
    match filtro with
    | Some e => In e (ESTADOS_PERMITIDOS env)
    | None => True
    end.
Proof.
  unfold get_solicitudes_by_status, validar_estado.
  destruct estado as [s|].
  - destruct (PyStr.truthy s && PyStr.truthy (PyStr.strip s)).
    + destruct (PyStr.in_list (str_title env s) (ESTADOS_PERMITIDOS env)) eqn:Hin; simpl negb;
        cbv iota.
      * right. exists (Some (str_title env s)). rewrite bind_external_ret.
        split; [reflexivity | now apply in_list_In].
      * left. reflexivity.
    + right. exists None. rewrite bind_external_ret. split; [reflexivity | exact I].
  - right. exists None. rewrite bind_external_ret. split; [reflexivity | exact I].
Qed.

(** ** Further properties of the profile fields and of the create route *)

(** X17: with an accepted header value and a 200 profile, the user is
    built from the profile as it is: a profile without "email" gives the
    address "user@example.com", a profile without "id" makes both
    [get_current_user] and [get_current_user_id] raise KeyError('id'), and
    otherwise the id and the email are the ones of the profile. *)
Theorem profile_fields_of_current_user {Solicitud} (env : Env Solicitud) (req : Request)
    (r : Response) (p : gmap string Json) :
  PyStr.in_list (user_type_or_default (x_user_type req)) ["owner"; "clinic"] = true ->
  client_get env (credentials req) = Returns r ->
  status_code r = 200 ->
  json r = Returns (JObject p) ->
  let missing := Error {| err_class := KeyError; err_str := "'id'" |} in
  match p !! "id" with
  | None =>
      outcome (get_current_user env req) = Raises missing /\
      outcome (get_current_user_id env req) = Raises missing
  | Some uid =>
      outcome (get_current_user_id env req) = Returns uid /\
      exists u, outcome (get_current_user env req) = Returns u /\
                id u = uid /\
                userType u = user_type_or_default (x_user_type req) /\
                match p !! "email" with
                | Some e => email u = e
                | None => email u = JString "user@example.com"
                end
  end.
Proof.
  intros Hty Hget Hst Hjson. cbv zeta.
  destruct (p !! "id") as [uid|] eqn:Hid.
  - rewrite (get_current_user_id_returns env req r p uid Hty Hget Hst Hjson Hid).
    rewrite (get_current_user_returns env req r p uid Hty Hget Hst Hjson Hid).
    split; [reflexivity|]. eexists. split; [reflexivity|]. simpl.
    destruct (p !! "email"); auto.
  - unfold get_current_user, get_current_user_id. rewrite Hty. simpl negb. cbv iota.
    rewrite (get_user_profile_returns env _ r _ Hget Hst Hjson).
    unfold getitem, bind. rewrite Hid. split; reflexivity.
Qed.

Lemma profile_fields_of_current_user_witness :
  outcome (get_current_user Demo.env_sin_id (Demo.req "t-ok" (Some "owner")))
  = Raises (Error {| err_class := KeyError; err_str := "'id'" |}) /\
  outcome (get_current_user_id Demo.env_sin_id (Demo.req "t-ok" (Some "owner")))
  = Raises (Error {| err_class := KeyError; err_str := "'id'" |}).
Proof.
  apply (profile_fields_of_current_user Demo.env_sin_id (Demo.req "t-ok" (Some "owner"))
           (Demo.respuesta 200 (Returns (JObject ∅))) ∅ eq_refl eq_refl eq_refl eq_refl).
Defined.

(** X18: what a guard of the read routes can raise: an HTTPException
    with the 400 for the header, the 500 or the 503 of the profile call or
    the 403 for the user type, never a 401 or a 404; or, only after the
    profile service answered 200 with a body that decodes, the exception of
    [user_profile["id"]]: the KeyError of an object without "id" or the
    TypeError of a body that is not an object. *)
Theorem guard_refusals {Solicitud} (env : Env Solicitud) (req : Request) (e : exn) :
  outcome (get_current_user_clinic env req) = Raises e \/
  outcome (get_current_user_owner env req) = Raises e ->
  match e with
  | HTTPException c _ => c = 400 \/ c = 403 \/ c = 500 \/ c = 503
  | Error pe =>
      exists r body, client_get env (credentials req) = Returns r /\
                     status_code r = 200 /\ json r = Returns body /\
                     match body with
                     | JObject p => p !! "id" = None /\ err_class pe = KeyError
                     | _ => err_class pe = TypeError
                     end
  end.
Proof.
  unfold get_current_user_clinic, get_current_user_owner.
  rewrite !guard_after_current_user.
  pose proof (get_current_user_cases env req) as Hcu.
  destruct (get_current_user env req) as [t [u|e']] eqn:Hm; simpl.
  - intros [H|H];
      match type of H with
      | context [String.eqb ?a ?b] => destruct (String.eqb a b)
      end; simpl in H; try discriminate; injection H as <-; auto.
  - intros [H|H]; injection H as <-;
      (destruct e' as [c d|pe];
       [ destruct Hcu as [_ [Hc|[Hc|Hc]]]; auto
       | destruct Hcu as [_ [_ [r [body [Hget [Hst [Hjson Hno]]]]]]];
         exists r, body; repeat split; try assumption;
         unfold no_id_in in Hno;
         destruct body; try (subst pe; reflexivity);
         destruct Hno as [Hid ->]; split; [assumption | reflexivity] ]).
Qed.

Lemma guard_refusals_witness :
  exists r body, client_get Casos.env_cuerpo_lista "t-ok" = Returns r /\
                 status_code r = 200 /\ json r = Returns body /\
                 match body with
                 | JObject p => p !! "id" = None /\ err_class Casos.indice_de_lista = KeyError
                 | _ => err_class Casos.indice_de_lista = TypeError
                 end.
Proof.
  apply (guard_refusals Casos.env_cuerpo_lista (Demo.req "t-ok" (Some "clinic"))
           (Error Casos.indice_de_lista)).
  left. reflexivity.
Defined.

(** X19: the create route with a token whose profile has an id, a form
    the schema accepts and no image writes one document for that id and
    answers what the store answers, and it does so for each header the id
    dependency accepts: 'clinic', 'owner' or none. *)
Theorem route_create_end_to_end {Solicitud} (env : Env Solicitud) (req : Request)
    (r : Response) (p : gmap string Json) (uid : Json) (form v : SolicitudForm) :
  PyStr.in_list (user_type_or_default (x_user_type req)) ["owner"; "clinic"] = true ->
  client_get env (credentials req) = Returns r ->
  status_code r = 200 ->
  json r = Returns (JObject p) ->
  p !! "id" = Some uid ->
  SolicitudCreateWithImage env form = Returns v ->
  route_create env req form None
  = ([EvProfileGet (credentials req);
      EvCreateSolicitudWithOwner (nueva_solicitud env (token_hex_12 env) VNone v) uid],
     create_solicitud_with_owner env (nueva_solicitud env (token_hex_12 env) VNone v) uid).
Proof.
  intros Hty Hget Hst Hjson Hid Hval.
  unfold route_create, get_current_user_id_clinic. rewrite bind_ret_r.
  rewrite (get_current_user_id_returns env req r p uid Hty Hget Hst Hjson Hid).
  rewrite bind_returns.
  unfold create_solicitud, external. rewrite Hval. simpl.
  destruct (create_solicitud_with_owner env _ uid); reflexivity.
Qed.

Lemma route_create_end_to_end_witness :
  route_create Demo.env (Demo.req "t-ok" None) Demo.form None
  = ([EvProfileGet "t-ok";
      EvCreateSolicitudWithOwner
        (nueva_solicitud Demo.env (token_hex_12 Demo.env) VNone Demo.form) (JString "user_123")],
     create_solicitud_with_owner Demo.env
       (nueva_solicitud Demo.env (token_hex_12 Demo.env) VNone Demo.form) (JString "user_123")).
Proof.
  apply (route_create_end_to_end Demo.env (Demo.req "t-ok" None)
           (Demo.respuesta 200 (Returns (JObject Demo.perfil))) Demo.perfil (JString "user_123")
           Demo.form Demo.form eq_refl eq_refl eq_refl eq_refl eq_refl eq_refl).
Defined.
